(** * GPS-Clock: the per-tick update of the GPS LED clock

    A shallow embedding of [LEDClockApplication.update_time] and
    [set_clock_mode] of GPS-CLOCK.py and GPS-CLOCK2.py, together with the
    library calls they make (pynmea2 attribute access and field converters,
    CPython's [datetime] and [_strptime], [pytz.timezone]).

    Conventions.
    - Python integers are [Z]; [//] and [%] with a positive divisor are
      [Z.div] and [Z.modulo].
    - Python [str] is [string]; a slice [s[a:b]] is [substring a (b-a) s].
    - A call that may raise returns a sum or an option; the exception that
      escapes [update_time] is part of its result. *)

From Stdlib Require Import ZArith List String Ascii Bool Lia.
Import ListNotations.

Local Open Scope Z_scope.

(** ** Python strings *)

Definition chars (s : string) : list ascii := list_ascii_of_string s.

Definition code (c : ascii) : Z := Z.of_nat (nat_of_ascii c).

Definition is_digit (c : ascii) : bool := (48 <=? code c) && (code c <=? 57).

(** The ASCII blanks [int] strips on both sides: tab, line feed, vertical
    tab, form feed, carriage return and space. (The separators 28-31 are not
    among them: [int] refuses a text that holds one.) *)
Definition is_space (c : ascii) : bool :=
  ((9 <=? code c) && (code c <=? 13)) || (code c =? 32).

Definition digit_val (c : ascii) : Z := code c - 48.

Definition digit_char (d : Z) : ascii := ascii_of_nat (Z.to_nat (48 + d)).

Fixpoint lstrip (cs : list ascii) : list ascii :=
  match cs with
  | c :: r => if is_space c then lstrip r else cs
  | [] => []
  end.

Definition strip (cs : list ascii) : list ascii := rev (lstrip (rev (lstrip cs))).

(** [s[n:]] *)
Fixpoint string_from (n : nat) (s : string) : string :=
  match n, s with
  | O, _ => s
  | S k, String _ r => string_from k r
  | S _, EmptyString => EmptyString
  end.

Definition upper_char (c : ascii) : ascii :=
  if (97 <=? code c) && (code c <=? 122) then ascii_of_nat (nat_of_ascii c - 32) else c.

(** [str.upper] on ASCII text. *)
Fixpoint upper (s : string) : string :=
  match s with
  | EmptyString => EmptyString
  | String c r => String (upper_char c) (upper r)
  end.

(** The digits of a decimal literal after the sign: digits with single
    underscores between them. [after_digit] tells whether the previous
    character was a digit. *)
Fixpoint int_digits (acc : Z) (after_digit : bool) (cs : list ascii) : option Z :=
  match cs with
  | [] => if after_digit then Some acc else None
  | c :: r =>
      if is_digit c then int_digits (10 * acc + digit_val c) true r
      else if (code c =? 95) && after_digit then
        match r with
        | d :: _ => if is_digit d then int_digits acc false r else None
        | [] => None
        end
      else None
  end.

(** [sys.get_int_max_str_digits()]: the longest numeral [int] converts
    (CPython 3.11, default setting). *)
Definition MAX_STR_DIGITS : Z := 4300.

(** [int(s)] for a [str] of ASCII text; [None] stands for [ValueError]. A
    numeral of more than [MAX_STR_DIGITS] digits (leading zeros counted,
    underscores not) is refused. *)
Definition py_int (s : string) : option Z :=
  let cs := strip (chars s) in
  if MAX_STR_DIGITS <? Z.of_nat (List.length (filter is_digit cs)) then None
  else
    match cs with
    | c :: r =>
        if code c =? 43 then int_digits 0 false r
        else if code c =? 45 then option_map Z.opp (int_digits 0 false r)
        else int_digits 0 false (c :: r)
    | [] => None
    end.

(** ** Calendar arithmetic (CPython [datetime.py]) *)

Record date := mkDate { d_year : Z; d_month : Z; d_day : Z }.

Record time := mkTime { t_hour : Z; t_minute : Z; t_second : Z; t_microsecond : Z }.

Record datetime := mkDatetime {
  year : Z; month : Z; day : Z;
  hour : Z; minute : Z; second : Z; microsecond : Z
}.

Definition DAYS_IN_MONTH : list Z := [-1; 31; 28; 31; 30; 31; 30; 31; 31; 30; 31; 30; 31].

Definition DAYS_BEFORE_MONTH : list Z :=
  [-1; 0; 31; 59; 90; 120; 151; 181; 212; 243; 273; 304; 334].

Definition index_Z (l : list Z) (i : Z) : Z := nth (Z.to_nat i) l (-1).

Definition is_leap (y : Z) : bool :=
  (y mod 4 =? 0) && (negb (y mod 100 =? 0) || (y mod 400 =? 0)).

Definition days_before_year (y : Z) : Z :=
  let y := y - 1 in y * 365 + y / 4 - y / 100 + y / 400.

Definition days_in_month (y m : Z) : Z :=
  if (m =? 2) && is_leap y then 29 else index_Z DAYS_IN_MONTH m.

Definition days_before_month (y m : Z) : Z :=
  index_Z DAYS_BEFORE_MONTH m + (if (2 <? m) && is_leap y then 1 else 0).

Definition ymd2ord (y m d : Z) : Z :=
  days_before_year y + days_before_month y m + d.

Definition DI400Y : Z := days_before_year 401.
Definition DI100Y : Z := days_before_year 101.
Definition DI4Y : Z := days_before_year 5.
Definition MAXORDINAL : Z := 3652059.

Definition ord2ymd (n : Z) : Z * Z * Z :=
  let n := n - 1 in
  let n400 := n / DI400Y in
  let n := n mod DI400Y in
  let y := n400 * 400 + 1 in
  let n100 := n / DI100Y in
  let n := n mod DI100Y in
  let n4 := n / DI4Y in
  let n := n mod DI4Y in
  let n1 := n / 365 in
  let n := n mod 365 in
  let y := y + n100 * 100 + n4 * 4 + n1 in
  if (n1 =? 4) || (n100 =? 4) then (y - 1, 12, 31)
  else
    let leapyear := (n1 =? 3) && (negb (n4 =? 24) || (n100 =? 3)) in
    let m := Z.shiftr (n + 50) 5 in
    let preceding :=
      index_Z DAYS_BEFORE_MONTH m + (if (2 <? m) && leapyear then 1 else 0) in
    if n <? preceding then
      let m := m - 1 in
      let preceding :=
        preceding - (index_Z DAYS_IN_MONTH m + (if (m =? 2) && leapyear then 1 else 0)) in
      (y, m, n - preceding + 1)
    else (y, m, n - preceding + 1).

(** [_check_date_fields]: the ranges [date(year, month, day)] accepts. *)
Definition check_date_fields (y m d : Z) : bool :=
  (1 <=? y) && (y <=? 9999) && (1 <=? m) && (m <=? 12)
  && (1 <=? d) && (d <=? days_in_month y m).

(** [_check_time_fields]: the ranges [time(hour, minute, second, microsecond)]
    accepts. *)
Definition check_time_fields (h mi s us : Z) : bool :=
  (0 <=? h) && (h <=? 23) && (0 <=? mi) && (mi <=? 59)
  && (0 <=? s) && (s <=? 59) && (0 <=? us) && (us <=? 999999).

(** [datetime.combine(date, time)] on a [date] and a [time] object. *)
Definition combine (d : date) (t : time) : datetime :=
  mkDatetime (d_year d) (d_month d) (d_day d)
             (t_hour t) (t_minute t) (t_second t) (t_microsecond t).

(** [datetime.__add__] with a [timedelta] of [off] whole seconds; [None]
    stands for [OverflowError]. *)
Definition add_seconds (dt : datetime) (off : Z) : option datetime :=
  let total :=
    ymd2ord (year dt) (month dt) (day dt) * 86400
    + hour dt * 3600 + minute dt * 60 + second dt + off in
  let days := total / 86400 in
  let secs := total mod 86400 in
  let h := secs / 3600 in
  let rem := secs mod 3600 in
  if (0 <? days) && (days <=? MAXORDINAL) then
    let '(y, m, d) := ord2ymd days in
    Some (mkDatetime y m d h (rem / 60) (rem mod 60) (microsecond dt))
  else None.

Definition pad2 (n : Z) : string :=
  String (digit_char (n / 10 mod 10)) (String (digit_char (n mod 10)) EmptyString).

Definition pad4 (n : Z) : string :=
  String (digit_char (n / 1000 mod 10)) (String (digit_char (n / 100 mod 10)) (pad2 n)).

Definition newline : string := String (ascii_of_nat 10) EmptyString.

(** [strftime('%Y-%m-%d\n%H:%M:%S')]; the years that reach it have four
    digits. *)
Definition strftime (dt : datetime) : string :=
  (pad4 (year dt) ++ "-" ++ pad2 (month dt) ++ "-" ++ pad2 (day dt) ++ newline
   ++ pad2 (hour dt) ++ ":" ++ pad2 (minute dt) ++ ":" ++ pad2 (second dt))%string.

(** ** Field converters (pynmea2 [nmea_utils], CPython [_strptime]) *)

Definition in_range (lo hi : Z) (c : ascii) : bool := (lo <=? code c) && (code c <=? hi).

(** One alternative of a directive's regular expression: the value it reads
    and the text left after it. *)
Definition alternative : Type := list ascii -> option (Z * list ascii).

Definition two (p1 p2 : ascii -> bool) : alternative := fun cs =>
  match cs with
  | c1 :: c2 :: r =>
      if p1 c1 && p2 c2
      then Some ((if is_digit c1 then digit_val c1 else 0) * 10 + digit_val c2, r)
      else None
  | _ => None
  end.

Definition one (p : ascii -> bool) : alternative := fun cs =>
  match cs with
  | c :: r => if p c then Some (digit_val c, r) else None
  | [] => None
  end.

(** [%d] is [3[0-1]|[1-2]\d|0[1-9]|[1-9]| [1-9]]. *)
Definition d_alternatives : list alternative :=
  [ two (in_range 51 51) (in_range 48 49);
    two (in_range 49 50) is_digit;
    two (in_range 48 48) (in_range 49 57);
    one (in_range 49 57);
    two (in_range 32 32) (in_range 49 57) ].

(** [%m] is [1[0-2]|0[1-9]|[1-9]]. *)
Definition m_alternatives : list alternative :=
  [ two (in_range 49 49) (in_range 48 50);
    two (in_range 48 48) (in_range 49 57);
    one (in_range 49 57) ].

(** [%y] is [\d\d]. *)
Definition y_alternatives : list alternative := [ two is_digit is_digit ].

Definition matches (alts : list alternative) (cs : list ascii) : list (Z * list ascii) :=
  flat_map (fun a => match a cs with Some x => [x] | None => [] end) alts.

(** The match the backtracking matcher finds for [%d%m%y]: the first one in
    the order of the alternatives, whether or not it reaches the end of the
    text. *)
Definition match_dmy (cs : list ascii) : option (Z * Z * Z * list ascii) :=
  hd_error
    (flat_map (fun dr =>
       flat_map (fun mr =>
         map (fun yr => (fst dr, fst mr, fst yr, snd yr))
             (matches y_alternatives (snd mr)))
         (matches m_alternatives (snd dr)))
       (matches d_alternatives cs)).

(** The century [_strptime] gives a [%y] value. *)
Definition century_year (yy : Z) : Z := if yy <=? 68 then yy + 2000 else yy + 1900.

(** [datestamp(s)], that is [datetime.strptime(s, '%d%m%y').date()]; [None]
    stands for [ValueError]. *)
Definition datestamp (s : string) : option date :=
  match match_dmy (chars s) with
  | Some (d, m, yy, []) =>
      let y := century_year yy in
      if check_date_fields y m d then Some (mkDate y m d) else None
  | _ => None
  end.

(** What the libraries compute and the model leaves open: the float
    conversion of the fractional seconds (floating point), and the zone
    database behind [pytz]. *)
Record Lib := mkLib {
  (** [int(float(ms_s) * 1000000)]; [None] when it raises. *)
  micros : string -> option Z;
  (** the zone database: for a zone name it knows, the offset from UTC in
      seconds at a UTC instant. *)
  zoneinfo : string -> option (datetime -> Z)
}.

(** [timestamp(s)]; [None] stands for the exception of a failed conversion. *)
Definition timestamp (L : Lib) (s : string) : option time :=
  let ms_s := string_from 6 s in
  let ms := if String.eqb ms_s EmptyString then Some 0 else micros L ms_s in
  match ms, py_int (substring 0 2 s), py_int (substring 2 2 s), py_int (substring 4 2 s) with
  | Some us, Some h, Some mi, Some sec =>
      if check_time_fields h mi sec us then Some (mkTime h mi sec us) else None
  | _, _, _, _ => None
  end.

(** ** Sentences (pynmea2 [NMEASentence]) *)

(** What [self.ser.readline().decode('ascii', 'ignore').rstrip()] followed
    by [pynmea2.parse] makes of one complete line of the serial input:
    [parse] raises [ParseError] (the text does not have the shape of a
    sentence, its checksum does not match, or its type is unknown), or it
    returns a message, or reading or parsing the line raises an exception
    that is neither [ParseError] nor [UnicodeDecodeError] ([parse] raises
    [IndexError] on the proprietary sentence [$PUBX], [readline] raises
    [SerialException] when the device is gone). *)
Inductive sentence : Type :=
| Unparseable (line : string)   (* [parse] raises [ParseError] *)
| Other                         (* a message that is not an [RMC] instance *)
| RMC (data : list string)      (* an [RMC] message and its comma-separated fields *)
| Fault (exception : string).   (* the exception of that name is raised *)

(** The value of an attribute that has a converter. *)
Inductive attr (A : Type) : Type :=
| PyNone
| PyObj (a : A)
| PyStr (v : string).
Arguments PyNone {A}.
Arguments PyObj {A} a.
Arguments PyStr {A} v.

(** [self.data[i]] when [i < len(self.data)], [''] otherwise. *)
Definition field (i : nat) (data : list string) : string := nth i data EmptyString.

(** [NMEASentence.__getattr__] for a field with a converter: [None] for an
    empty field, the converted value, or the text itself when the converter
    raises. *)
Definition getattr {A : Type} (conv : string -> option A) (v : string) : attr A :=
  if String.eqb v EmptyString then PyNone
  else match conv v with
       | Some a => PyObj a
       | None => PyStr v
       end.

Definition msg_timestamp (L : Lib) (data : list string) : attr time :=
  getattr (timestamp L) (field 0 data).

Definition msg_status (data : list string) : string := field 1 data.

Definition msg_datestamp (data : list string) : attr date :=
  getattr datestamp (field 8 data).

(** Truth value of an attribute: [None] and [''] are false, [date] and [time]
    objects are true. *)
Definition truthy {A : Type} (a : attr A) : bool :=
  match a with
  | PyNone => false
  | PyObj _ => true
  | PyStr v => negb (String.eqb v EmptyString)
  end.

(** ** Exceptions and time zones *)

Inductive exn : Type :=
| TypeError
| UnknownTimeZoneError
| OverflowError
| AttributeError
| Unhandled (exception : string).   (* raised while a line is read or parsed *)

(** [datetime.combine] on attribute values: anything but a [date] and a
    [time] is a [TypeError]. *)
Definition py_combine (d : attr date) (t : attr time) : datetime + exn :=
  match d, t with
  | PyObj d, PyObj t => inl (combine d t)
  | _, _ => inr TypeError
  end.

Definition utc : datetime -> Z := fun _ => 0.

(** [pytz.timezone(zone)]; [None] stands for [UnknownTimeZoneError]. *)
Definition timezone (L : Lib) (zone : string) : option (datetime -> Z) :=
  if String.eqb (upper zone) "UTC" then Some utc else zoneinfo L zone.

(** [dt.replace(tzinfo=pytz.UTC).astimezone(tz)]. *)
Definition astimezone (dt : datetime) (tz : datetime -> Z) : option datetime :=
  add_seconds dt (tz dt).

(** ** The application *)

(** The two programs of the repository. *)
Inductive program : Type := GPS_CLOCK | GPS_CLOCK2.

(** The part of [LEDClockApplication] the update reads and writes.
    [clock_mode] exists in GPS-CLOCK2.py only, and is [None] as long as
    [__init__] has not assigned it. [ticks] is a history variable: the
    instants at which [update_time] was entered. *)
Record app := mkApp {
  ser : list sentence;            (* the lines waiting in the serial input buffer *)
  selected_time_zone : string;
  clock_mode : option string;
  time_label : string;            (* time_label["text"] *)
  canvas : option (Z * Z * Z);    (* the hands on the analog face: hour, minute, second *)
  stdout : list string;           (* what [print] wrote *)
  timers : list Z;                (* due instants (ms) of the pending [after] callbacks *)
  now : Z;                        (* the instant (ms) of the event being handled *)
  ticks : list Z
}.

Definition set_ser (b : list sentence) (a : app) : app :=
  mkApp b (selected_time_zone a) (clock_mode a) (time_label a) (canvas a)
        (stdout a) (timers a) (now a) (ticks a).

Definition set_selected_time_zone (z : string) (a : app) : app :=
  mkApp (ser a) z (clock_mode a) (time_label a) (canvas a)
        (stdout a) (timers a) (now a) (ticks a).

Definition set_mode (m : option string) (a : app) : app :=
  mkApp (ser a) (selected_time_zone a) m (time_label a) (canvas a)
        (stdout a) (timers a) (now a) (ticks a).

Definition set_time_label (t : string) (a : app) : app :=
  mkApp (ser a) (selected_time_zone a) (clock_mode a) t (canvas a)
        (stdout a) (timers a) (now a) (ticks a).

Definition set_canvas (c : option (Z * Z * Z)) (a : app) : app :=
  mkApp (ser a) (selected_time_zone a) (clock_mode a) (time_label a) c
        (stdout a) (timers a) (now a) (ticks a).

Definition print (line : string) (a : app) : app :=
  mkApp (ser a) (selected_time_zone a) (clock_mode a) (time_label a) (canvas a)
        (stdout a ++ [line]) (timers a) (now a) (ticks a).

(** [self.master.after(ms, self.update_time)]. A handler is taken to last no
    time: [now] is the instant at which it starts, and the timer is due [ms]
    after that instant (in a run it is due [ms] after the call, which comes
    later by what the loop took). *)
Definition after (ms : Z) (a : app) : app :=
  mkApp (ser a) (selected_time_zone a) (clock_mode a) (time_label a) (canvas a)
        (stdout a) (timers a ++ [now a + ms]) (now a) (ticks a).

Definition set_timers (t : list Z) (a : app) : app :=
  mkApp (ser a) (selected_time_zone a) (clock_mode a) (time_label a) (canvas a)
        (stdout a) t (now a) (ticks a).

Definition set_now (t : Z) (a : app) : app :=
  mkApp (ser a) (selected_time_zone a) (clock_mode a) (time_label a) (canvas a)
        (stdout a) (timers a) t (ticks a).

Definition enter (a : app) : app :=
  mkApp (ser a) (selected_time_zone a) (clock_mode a) (time_label a) (canvas a)
        (stdout a) (timers a) (now a) (ticks a ++ [now a]).

(** [draw_analog_clock]: the face is redrawn with the three hands. *)
Definition draw_analog_clock (dt : datetime) (a : app) : app :=
  set_canvas (Some (hour dt mod 12, minute dt, second dt)) a.

(** The statements between the zone conversion and [break]:
    GPS-CLOCK.py lines 75-76, GPS-CLOCK2.py lines 140-143. *)
Definition show (p : program) (dt : datetime) (a : app) : app + exn :=
  match p with
  | GPS_CLOCK => inl (set_time_label (strftime dt) a)
  | GPS_CLOCK2 =>
      match clock_mode a with
      | None => inr AttributeError
      | Some m =>
          if String.eqb m "digital" then inl (set_time_label (strftime dt) a)
          else inl (draw_analog_clock dt a)
      end
  end.

(** How the loop of one tick ends. *)
Inductive outcome : Type :=
| Shown (dt : datetime)   (* [break] after the display was given [dt] *)
| Nothing                 (* the buffer ran empty *)
| Raised (e : exn).       (* an exception left the loop *)

Definition parse_error (line : string) : string :=
  ("Parse error with line: " ++ line)%string.

(** [while self.ser.in_waiting: ...] on the lines [buf] of the buffer. The
    lines that were not read stay in [ser]. The handlers of the loop are for
    [ParseError] and [UnicodeDecodeError]; any other exception leaves it. *)
Fixpoint while_in_waiting (L : Lib) (p : program) (buf : list sentence) (a : app)
  : app * outcome :=
  match buf with
  | [] => (set_ser [] a, Nothing)
  | Unparseable line :: rest => while_in_waiting L p rest (print (parse_error line) a)
  | Other :: rest => while_in_waiting L p rest a
  | Fault exception :: rest => (set_ser rest a, Raised (Unhandled exception))
  | RMC data :: rest =>
      if truthy (msg_timestamp L data) && truthy (msg_datestamp data) then
        match py_combine (msg_datestamp data) (msg_timestamp L data) with
        | inr e => (set_ser rest a, Raised e)
        | inl datetime_obj =>
            match timezone L (selected_time_zone a) with
            | None => (set_ser rest a, Raised UnknownTimeZoneError)
            | Some tz =>
                match astimezone datetime_obj tz with
                | None => (set_ser rest a, Raised OverflowError)
                | Some local =>
                    match show p local a with
                    | inl a' => (set_ser rest a', Shown local)
                    | inr e => (set_ser rest a, Raised e)
                    end
                end
            end
        end
      else while_in_waiting L p rest a
  end.

(** [update_time]: the loop, then [self.master.after(1000, self.update_time)]
    unless an exception left the loop. *)
Definition update_time (L : Lib) (p : program) (a : app) : app * outcome :=
  let a := enter a in
  match while_in_waiting L p (ser a) a with
  | (a', Raised e) => (a', Raised e)
  | (a', r) => (after 1000 a', r)
  end.

(** [set_clock_mode] (GPS-CLOCK2.py). *)
Definition set_clock_mode (L : Lib) (mode : string) (a : app) : app * outcome :=
  update_time L GPS_CLOCK2 (set_mode (Some mode) a).

(** [set_time_zone]. *)
Definition set_time_zone (tz : string) (a : app) : app :=
  set_selected_time_zone tz a.

(** [__init__]: the first [update_time] runs before GPS-CLOCK2.py assigns
    [clock_mode]; an exception there leaves the constructor. *)
Definition init (L : Lib) (p : program) (zone : string) (buf : list sentence) : app + exn :=
  let a0 := mkApp buf zone None EmptyString None [] [] 0 [] in
  match update_time L p a0 with
  | (_, Raised e) => inr e
  | (a1, _) =>
      inl (match p with
           | GPS_CLOCK => a1
           | GPS_CLOCK2 => set_mode (Some "digital"%string) a1
           end)
  end.

(** ** The event loop *)

(** What can happen to a running application. *)
Inductive event : Type :=
| Elapse (ms : nat)                  (* the event loop runs for [ms] milliseconds *)
| Receive (lines : list sentence)    (* the receiver delivers lines *)
| SetClockMode (mode : string)       (* a "Clock Mode" menu entry *)
| SetTimeZone (tz : string).         (* a "Time Zone" menu entry *)

(** The callbacks due at the current instant run one after the other; an
    exception in a callback is reported and the loop goes on. *)
Definition dispatch (L : Lib) (p : program) (a : app) : app :=
  let due := filter (fun t => t <=? now a) (timers a) in
  let pending := filter (fun t => negb (t <=? now a)) (timers a) in
  fold_left (fun s _ => fst (update_time L p s)) due (set_timers pending a).

Fixpoint elapse (L : Lib) (p : program) (ms : nat) (a : app) : app :=
  match ms with
  | O => a
  | S k => elapse L p k (dispatch L p (set_now (now a + 1) a))
  end.

Definition handle (L : Lib) (p : program) (e : event) (a : app) : app :=
  match e with
  | Elapse ms => elapse L p ms a
  | Receive lines => set_ser (ser a ++ lines) a
  | SetClockMode mode =>
      match p with
      | GPS_CLOCK => a
      | GPS_CLOCK2 => fst (set_clock_mode L mode a)
      end
  | SetTimeZone tz => set_time_zone tz a
  end.

Definition run (L : Lib) (p : program) (es : list event) (a : app) : app :=
  fold_left (fun s e => handle L p e s) es a.

(** Number of entries of [update_time] at an instant [t] with
    [lo < t <= hi]. *)
Definition cycles_between (lo hi : Z) (a : app) : nat :=
  List.length (filter (fun t => (lo <? t) && (t <=? hi)) (ticks a)).

(** ** Vocabulary of the statements *)

(** The test of line 71 (GPS-CLOCK.py) and line 136 (GPS-CLOCK2.py): an
    [RMC] message whose [timestamp] and [datestamp] are both true. *)
Definition time_bearing (L : Lib) (s : sentence) : bool :=
  match s with
  | RMC data => truthy (msg_timestamp L data) && truthy (msg_datestamp data)
  | _ => false
  end.

(** A sentence that cannot pass the test whatever its fields convert to:
    unparseable, of another type, or an [RMC] whose time or date field is
    empty. A line at which an exception leaves the loop is not one. *)
Definition lacks_time_or_date (s : sentence) : bool :=
  match s with
  | RMC data =>
      String.eqb (field 0 data) EmptyString || String.eqb (field 8 data) EmptyString
  | Fault _ => false
  | _ => true
  end.

(** The loop reads the sentence and goes on to the next: no exception
    leaves the loop at it, and it fails the test. *)
Definition passed_over (L : Lib) (s : sentence) : bool :=
  match s with
  | Fault _ => false
  | _ => negb (time_bearing L s)
  end.

(** No sentence of [buf] passes the test or stops the loop: the loop reads
    them all. *)
Definition none_time_bearing (L : Lib) (buf : list sentence) : bool :=
  forallb (passed_over L) buf.

(** The lines the loop prints while it reads [buf] to its end. *)
Fixpoint diagnostics (buf : list sentence) : list string :=
  match buf with
  | [] => []
  | Unparseable line :: rest => parse_error line :: diagnostics rest
  | _ :: rest => diagnostics rest
  end.

Definition print_all (lines : list string) (a : app) : app :=
  fold_left (fun s l => print l s) lines a.

(** The display branch can run: GPS-CLOCK2.py needs [clock_mode] assigned. *)
Definition ready (p : program) (a : app) : Prop :=
  match p with
  | GPS_CLOCK => True
  | GPS_CLOCK2 => clock_mode a <> None
  end.

(** The fields of an [RMC] message with the status field replaced. *)
Definition with_status (flag : string) (data : list string) : list string :=
  match data with
  | t :: _ :: r => t :: flag :: r
  | _ => data
  end.

(** [hhmmss] and [ddmmyy] as a receiver writes them. *)
Definition hhmmss (h mi s : Z) : string := (pad2 h ++ pad2 mi ++ pad2 s)%string.
Definition ddmmyy (d m yy : Z) : string := (pad2 d ++ pad2 m ++ pad2 yy)%string.

(** The fraction of a second of a time field: none, or one the float
    conversion turns into [us] microseconds. *)
Definition fraction_ok (L : Lib) (frac : string) (us : Z) : Prop :=
  (frac = EmptyString /\ us = 0)
  \/ (frac <> EmptyString /\ micros L frac = Some us /\ 0 <= us <= 999999).

(** [lo; lo+1; ...], [n] numbers. *)
Definition upto (lo : Z) (n : nat) : list Z := map (fun i => lo + Z.of_nat i) (seq 0 n).

(** The display is the label: GPS-CLOCK.py always, GPS-CLOCK2.py in
    digital mode. *)
Definition digital (p : program) (a : app) : bool :=
  match p with
  | GPS_CLOCK => true
  | GPS_CLOCK2 =>
      match clock_mode a with
      | Some m => String.eqb m "digital"
      | None => false
      end
  end.

(** ** Checks run over all dates and all two-digit numbers *)

Definition date_eqb (x y : date) : bool :=
  (d_year x =? d_year y) && (d_month x =? d_month y) && (d_day x =? d_day y).

(** [datestamp] reads [ddmmyy d m yy] as the day [d], the month [m] and the
    year [century_year yy], when that is a date of the calendar. *)
Definition datestamp_ok (d m yy : Z) : bool :=
  negb (check_date_fields (century_year yy) m d)
  || match datestamp (ddmmyy d m yy) with
     | Some x => date_eqb x (mkDate (century_year yy) m d)
     | None => false
     end.

(** [ord2ymd] undoes [ymd2ord] at a date of the calendar, whose ordinal is
    in range. *)
Definition ordinal_ok (y m d : Z) : bool :=
  negb (check_date_fields y m d)
  || ((0 <? ymd2ord y m d) && (ymd2ord y m d <=? MAXORDINAL)
      && match ord2ymd (ymd2ord y m d) with
         | (y', m', d') => (y' =? y) && (m' =? m) && (d' =? d)
         end).

Definition int_pad2_ok (n : Z) : bool :=
  match py_int (pad2 n) with
  | Some k => k =? n
  | None => false
  end.

Definition all3 (f : Z -> Z -> Z -> bool) (xs ys zs : list Z) : bool :=
  forallb (fun x => forallb (fun y => forallb (f x y) zs) ys) xs.

(** ** Sample inputs *)

(** A library without zones other than UTC and without fractions. *)
Definition bare : Lib := mkLib (fun _ => None) (fun _ => None).

(** A zone database that knows Tokyo, nine hours ahead of UTC. *)
Definition tokyo : Lib :=
  mkLib (fun _ => None)
        (fun z => if String.eqb z "Asia/Tokyo" then Some (fun _ => 32400) else None).

(** The fields of [$GPRMC,<t>,<flag>,4807.038,N,01131.000,E,022.4,084.4,<d>,003.1,W]. *)
Definition rmc_fields (t flag d : string) : list string :=
  [t; flag; "4807.038"; "N"; "01131.000"; "E"; "022.4"; "084.4"; d; "003.1"; "W"]%string.

(** A running application in digital mode with [buf] waiting. *)
Definition running (zone : string) (buf : list sentence) : app :=
  mkApp buf zone (Some "digital"%string) "2024-06-08"%string None [] [1000] 0 [].

(** ** Start-up: the choice of the port ([main]) *)

(** The decimal digits of [n >= 0], most significant first, in front of
    [acc]. *)
Fixpoint digits_of (fuel : nat) (n : Z) (acc : list ascii) : list ascii :=
  match fuel with
  | O => acc
  | S f =>
      let acc' := digit_char (n mod 10) :: acc in
      if n <? 10 then acc' else digits_of f (n / 10) acc'
  end.

(** The value of a numeral, read digit by digit from the left. *)
Definition numeral_step (v : Z) (c : ascii) : Z := 10 * v + digit_val c.

(** [str(n)] for an [int]. *)
Definition str_int (n : Z) : string :=
  if n <? 0
  then String "-" (string_of_list_ascii (digits_of (S (Z.to_nat (- n))) (- n) []))
  else string_of_list_ascii (digits_of (S (Z.to_nat n)) n []).

(** [enumerate(l, start)] *)
Fixpoint enumerate {A : Type} (start : Z) (l : list A) : list (Z * A) :=
  match l with
  | [] => []
  | x :: r => (start, x) :: enumerate (start + 1) r
  end.

(** [l[i]] for a list: a negative index counts from the end; [None] stands
    for [IndexError]. *)
Definition py_index {A : Type} (l : list A) (i : Z) : option A :=
  let n := Z.of_nat (List.length l) in
  let j := if i <? 0 then i + n else i in
  if (j <? 0) || (n <=? j) then None else nth_error l (Z.to_nat j).

(** The exceptions that can leave [main] before the window is built. *)
Inductive main_exn : Type :=
| ValueError
| IndexError.

(** What [main] prints before it asks: the heading and one numbered line for
    each port device, numbered from 1. *)
Definition main_listing (ports : list string) : list string :=
  "Available ports:"%string
  :: map (fun ip => (str_int (fst ip) ++ ": " ++ snd ip)%string) (enumerate 1 ports).

(** [main] from the two answers (ASCII text) to the port and the baud rate
    it hands to [LEDClockApplication], or the exception that ends it. *)
Definition main_select (ports : list string) (answer1 answer2 : string)
  : (string * Z) + main_exn :=
  match py_int answer1 with
  | None => inr ValueError
  | Some k =>
      let port_index := k - 1 in
      match py_index ports port_index with
      | None => inr IndexError
      | Some port =>
          match py_int answer2 with
          | None => inr ValueError
          | Some baudrate => inl (port, baudrate)
          end
      end
  end.

(** ** Fullscreen (GPS-CLOCK2.py) *)

(** The application window: the state above and the [fullscreen] flag. *)
Record window := mkWindow { widgets : app; fullscreen : bool }.

(** [center_clock]; [host] is what the clock of the computer reads, in UTC,
    when [datetime.now] is called. *)
Definition center_clock (L : Lib) (host : datetime) (a : app) : app + exn :=
  match clock_mode a with
  | None => inr AttributeError
  | Some m =>
      if String.eqb m "analog" then
        match timezone L (selected_time_zone a) with
        | None => inr UnknownTimeZoneError
        | Some tz =>
            match astimezone host tz with
            | None => inr OverflowError
            | Some local => inl (draw_analog_clock local a)
            end
        end
      else inl a
  end.

(** [toggle_fullscreen]: the flag is flipped before [center_clock] runs. *)
Definition toggle_fullscreen (L : Lib) (host : datetime) (w : window)
  : window * option exn :=
  match center_clock L host (widgets w) with
  | inl a => (mkWindow a (negb (fullscreen w)), None)
  | inr e => (mkWindow (widgets w) (negb (fullscreen w)), Some e)
  end.

(** [exit_fullscreen] *)
Definition exit_fullscreen (L : Lib) (host : datetime) (w : window)
  : window * option exn :=
  match center_clock L host (widgets w) with
  | inl a => (mkWindow a false, None)
  | inr e => (mkWindow (widgets w) false, Some e)
  end.

(** [a1] is [a] but for what the canvas shows. *)
Definition only_canvas_differs (a1 a : app) : Prop :=
  ser a1 = ser a /\ selected_time_zone a1 = selected_time_zone a
  /\ clock_mode a1 = clock_mode a /\ time_label a1 = time_label a
  /\ stdout a1 = stdout a /\ timers a1 = timers a /\ now a1 = now a
  /\ ticks a1 = ticks a.

(** ** Instants *)

(** The seconds from the start of day 0 of the calendar to [dt]. *)
Definition to_seconds (dt : datetime) : Z :=
  ymd2ord (year dt) (month dt) (day dt) * 86400
  + hour dt * 3600 + minute dt * 60 + second dt.

(** The fields of [dt] are those of a date and a time of day. *)
Definition valid_datetime (dt : datetime) : bool :=
  check_date_fields (year dt) (month dt) (day dt)
  && check_time_fields (hour dt) (minute dt) (second dt) (microsecond dt).

(** No exception leaves the loop at the sentence for what the line holds:
    reading and parsing it raise nothing but [ParseError], and if it passes
    the test its time and date fields convert. *)
Definition convertible (L : Lib) (s : sentence) : bool :=
  match s with
  | RMC data =>
      negb (time_bearing L (RMC data))
      || match msg_timestamp L data, msg_datestamp data with
         | PyObj _, PyObj _ => true
         | _, _ => false
         end
  | Fault _ => false
  | _ => true
  end.

(** The instants [0; 1000; ...; 1000 * (k - 1)]. *)
Definition every_second (k : nat) : list Z := map (fun i => 1000 * Z.of_nat i) (seq 0 k).

(** Consecutive instants of [l] are at least [gap] apart. *)
Fixpoint spaced (gap : Z) (l : list Z) : Prop :=
  match l with
  | t1 :: r =>
      match r with
      | t2 :: _ => t1 + gap <= t2 /\ spaced gap r
      | [] => True
      end
  | [] => True
  end.

(** With handlers that last no time, the ticks so far fell on the seconds
    [0; 1000; ...], and the one timer that may be pending is due at the next
    of them. *)
Definition on_the_second (a : app) : Prop :=
  exists k : nat,
    ticks a = every_second k
    /\ (timers a = []
        \/ (timers a = [1000 * Z.of_nat k] /\ now a < 1000 * Z.of_nat k)).

(** No event of [es] calls [update_time] from outside the timer: there is no
    such event in GPS-CLOCK.py, and in GPS-CLOCK2.py it is the choice of a
    clock mode. *)
Definition timer_driven (p : program) (es : list event) : bool :=
  match p with
  | GPS_CLOCK => true
  | GPS_CLOCK2 =>
      forallb (fun e => match e with SetClockMode _ => false | _ => true end) es
  end.

(** The first and the last ordinal of the years 1969-2068. *)
Definition ORD_1969 : Z := ymd2ord 1969 1 1.
Definition ORD_2068 : Z := ymd2ord 2068 12 31.

(** [lo; lo+1; ...], [n] numbers, counted up. *)
Fixpoint count_from (lo : Z) (n : nat) : list Z :=
  match n with
  | O => []
  | S k => lo :: count_from (lo + 1) k
  end.

(** [ord2ymd] gives a date of the calendar with the ordinal [n]. *)
Definition ordinal_inverse_ok (n : Z) : bool :=
  match ord2ymd n with
  | (y, m, d) => check_date_fields y m d && (ymd2ord y m d =? n)
  end.

(** The ordinal of a date of the years 1969-2068 lies between the first and
    the last of them. *)
Definition ordinal_bounds_ok (y m d : Z) : bool :=
  negb (check_date_fields y m d)
  || ((ORD_1969 <=? ymd2ord y m d) && (ymd2ord y m d <=? ORD_2068)).

(** ** The loop of one tick *)

Section Loop.

Variable L : Lib.
Variable p : program.

Lemma stdout_print_all (ls : list string) (a : app) :
  stdout (print_all ls a) = stdout a ++ ls.
Proof.
  revert a. induction ls as [|l ls IH]; intro a; simpl.
  - now rewrite app_nil_r.
  - rewrite IH. simpl. now rewrite <- app_assoc.
Qed.

Lemma print_all_frame (ls : list string) (a : app) :
  ser (print_all ls a) = ser a
  /\ selected_time_zone (print_all ls a) = selected_time_zone a
  /\ clock_mode (print_all ls a) = clock_mode a
  /\ time_label (print_all ls a) = time_label a
  /\ canvas (print_all ls a) = canvas a
  /\ timers (print_all ls a) = timers a
  /\ now (print_all ls a) = now a
  /\ ticks (print_all ls a) = ticks a.
Proof.
  revert a. induction ls as [|l ls IH]; intro a; simpl.
  - repeat split.
  - destruct (IH (print l a)) as (H1 & H2 & H3 & H4 & H5 & H6 & H7 & H8).
    rewrite H1, H2, H3, H4, H5, H6, H7, H8. repeat split.
Qed.

Lemma print_all_app (l1 l2 : list string) (a : app) :
  print_all (l1 ++ l2) a = print_all l2 (print_all l1 a).
Proof. unfold print_all. now rewrite fold_left_app. Qed.

(** Sentences that fail the test are read, reported if unparseable, and
    passed over. *)
Lemma loop_skip (pre rest : list sentence) (a : app) :
  none_time_bearing L pre = true ->
  while_in_waiting L p (pre ++ rest) a
  = while_in_waiting L p rest (print_all (diagnostics pre) a).
Proof.
  revert a. induction pre as [|s pre IH]; intros a H; simpl in *.
  - reflexivity.
  - apply andb_prop in H. destruct H as [Hs Hpre].
    destruct s as [line| |data|exception]; simpl in *.
    + now rewrite IH.
    + now rewrite IH.
    + apply negb_true_iff in Hs. rewrite Hs. now rewrite IH.
    + discriminate.
Qed.

Lemma loop_nothing (buf : list sentence) (a : app) :
  none_time_bearing L buf = true ->
  while_in_waiting L p buf a = (set_ser [] (print_all (diagnostics buf) a), Nothing).
Proof.
  intro H. rewrite <- (app_nil_r buf) at 1. now rewrite loop_skip.
Qed.

(** The loop at a line that raises an exception it does not handle. *)
Lemma loop_fault (exception : string) (post : list sentence) (a : app) :
  while_in_waiting L p (Fault exception :: post) a
  = (set_ser post a, Raised (Unhandled exception)).
Proof. reflexivity. Qed.

(** The loop reads a buffer to its end, or it stops at the first sentence
    that passes the test, or at the first line that raises an exception it
    does not handle, whichever comes first. *)
Lemma first_time_bearing (buf : list sentence) :
  none_time_bearing L buf = true
  \/ (exists pre data post,
         buf = pre ++ RMC data :: post
         /\ none_time_bearing L pre = true
         /\ time_bearing L (RMC data) = true)
  \/ (exists pre exception post,
         buf = pre ++ Fault exception :: post
         /\ none_time_bearing L pre = true).
Proof.
  induction buf as [|s buf IH].
  - now left.
  - destruct (passed_over L s) eqn:Hs.
    + destruct IH as [IH | [(pre & data & post & -> & Hpre & Hd)
                           | (pre & exception & post & -> & Hpre)]].
      * left. simpl. now rewrite Hs.
      * right. left. exists (s :: pre), data, post. repeat split; try assumption.
        simpl. now rewrite Hs.
      * right. right. exists (s :: pre), exception, post. split; [reflexivity|].
        simpl. now rewrite Hs.
    + right. destruct s as [line| |data|exception]; try discriminate.
      * left. exists [], data, buf. repeat split.
        unfold passed_over in Hs. now apply negb_false_iff in Hs.
      * right. exists [], exception, buf. repeat split.
Qed.

(** The loop at a well-formed sentence that passes the test. *)
Lemma loop_hit (data : list string) (post : list sentence) (a : app)
      (t : time) (d : date) :
  msg_timestamp L data = PyObj t ->
  msg_datestamp data = PyObj d ->
  while_in_waiting L p (RMC data :: post) a
  = match timezone L (selected_time_zone a) with
    | None => (set_ser post a, Raised UnknownTimeZoneError)
    | Some tz =>
        match astimezone (combine d t) tz with
        | None => (set_ser post a, Raised OverflowError)
        | Some local =>
            match show p local a with
            | inl a' => (set_ser post a', Shown local)
            | inr e => (set_ser post a, Raised e)
            end
        end
    end.
Proof. intros Ht Hd. simpl. rewrite Ht, Hd. reflexivity. Qed.

(** When the loop stops at a sentence that passes the test and shows a time,
    the sentence was well-formed and the zone known. *)
Lemma loop_shown (data : list string) (post : list sentence) (a a' : app)
      (dt : datetime) :
  time_bearing L (RMC data) = true ->
  while_in_waiting L p (RMC data :: post) a = (a', Shown dt) ->
  exists t d tz a1,
    msg_timestamp L data = PyObj t
    /\ msg_datestamp data = PyObj d
    /\ timezone L (selected_time_zone a) = Some tz
    /\ astimezone (combine d t) tz = Some dt
    /\ show p dt a = inl a1
    /\ a' = set_ser post a1.
Proof.
  simpl. intros Htb H. rewrite Htb in H.
  destruct (msg_datestamp data) as [|d|v] eqn:Hd;
    destruct (msg_timestamp L data) as [|t|w] eqn:Ht; simpl in H; try discriminate.
  destruct (timezone L (selected_time_zone a)) as [tz|]; try discriminate.
  destruct (astimezone (combine d t) tz) as [loc|] eqn:Hloc; try discriminate.
  destruct (show p loc a) as [a1|e] eqn:Hshow; try discriminate.
  inversion H; subst. exists t, d, tz, a1. repeat split; assumption.
Qed.

(** Every tick that shows a time found it in the first sentence that passes
    the test. *)
Lemma loop_shown_first (buf : list sentence) (a a' : app) (dt : datetime) :
  while_in_waiting L p buf a = (a', Shown dt) ->
  exists pre data post t d tz a1,
    buf = pre ++ RMC data :: post
    /\ none_time_bearing L pre = true
    /\ msg_timestamp L data = PyObj t
    /\ msg_datestamp data = PyObj d
    /\ timezone L (selected_time_zone a) = Some tz
    /\ astimezone (combine d t) tz = Some dt
    /\ show p dt (print_all (diagnostics pre) a) = inl a1
    /\ a' = set_ser post a1.
Proof.
  intro H.
  destruct (first_time_bearing buf)
    as [Hn | [(pre & data & post & -> & Hpre & Hd) | (pre & exception & post & -> & Hpre)]].
  - rewrite (loop_nothing _ _ Hn) in H. discriminate.
  - rewrite (loop_skip _ _ _ Hpre) in H.
    destruct (loop_shown _ _ _ _ _ Hd H) as (t & d & tz & a1 & Ht & Hds & Htz & Hloc & Hshow & ->).
    destruct (print_all_frame (diagnostics pre) a) as (_ & Hz & _).
    rewrite Hz in Htz.
    exists pre, data, post, t, d, tz, a1. repeat split; assumption.
  - rewrite (loop_skip _ _ _ Hpre), loop_fault in H. discriminate.
Qed.

(** The display branch succeeds once [clock_mode] is assigned. *)
Lemma show_ready (dt : datetime) (a : app) :
  ready p a -> exists a1, show p dt a = inl a1
    /\ ser a1 = ser a /\ stdout a1 = stdout a /\ timers a1 = timers a
    /\ now a1 = now a /\ ticks a1 = ticks a
    /\ selected_time_zone a1 = selected_time_zone a.
Proof.
  unfold ready, show. destruct p.
  - intros _. eexists. split; [reflexivity|]. repeat split.
  - intro H. destruct (clock_mode a) as [m|]; [|congruence].
    destruct (String.eqb m "digital"); eexists; (split; [reflexivity|]); repeat split.
Qed.

(** The display branch writes the label or the canvas, nothing else. *)
Lemma show_frame (dt : datetime) (a a1 : app) :
  show p dt a = inl a1 ->
  ser a1 = ser a /\ stdout a1 = stdout a /\ timers a1 = timers a
  /\ now a1 = now a /\ ticks a1 = ticks a
  /\ selected_time_zone a1 = selected_time_zone a
  /\ clock_mode a1 = clock_mode a.
Proof.
  unfold show. destruct p.
  - intro H. inversion H; subst. repeat split.
  - destruct (clock_mode a) as [m|] eqn:Hm; [|discriminate].
    destruct (String.eqb m "digital"); intro H; inversion H; subst; simpl;
      rewrite ?Hm; repeat split.
Qed.

End Loop.

(** ** One tick *)

Section Tick.

Variable L : Lib.
Variable p : program.

(** The test looks at nothing but whether the two fields are empty. *)
Lemma time_bearing_fields (data : list string) :
  time_bearing L (RMC data)
  = negb (String.eqb (field 0 data) EmptyString)
    && negb (String.eqb (field 8 data) EmptyString).
Proof.
  simpl. unfold msg_timestamp, msg_datestamp, getattr.
  destruct (String.eqb (field 0 data) EmptyString) eqn:H0;
    destruct (String.eqb (field 8 data) EmptyString) eqn:H8; simpl.
  - reflexivity.
  - reflexivity.
  - destruct (timestamp L (field 0 data)); simpl; rewrite ?H0; reflexivity.
  - destruct (timestamp L (field 0 data)); destruct (datestamp (field 8 data));
      simpl; rewrite ?H0, ?H8; reflexivity.
Qed.

Lemma lacks_time_or_date_spec (x : sentence) :
  lacks_time_or_date x = passed_over L x.
Proof.
  destruct x as [line| |data|exception]; try reflexivity.
  unfold passed_over. rewrite time_bearing_fields. unfold lacks_time_or_date.
  destruct (String.eqb (field 0 data) EmptyString);
    destruct (String.eqb (field 8 data) EmptyString); reflexivity.
Qed.

Lemma none_time_bearing_lacks (buf : list sentence) :
  forallb lacks_time_or_date buf = none_time_bearing L buf.
Proof.
  unfold none_time_bearing. induction buf as [|x buf IH]; simpl.
  - reflexivity.
  - now rewrite IH, lacks_time_or_date_spec.
Qed.

Lemma field_with_status (flag : string) (data : list string) (i : nat) :
  i <> 1%nat -> field i (with_status flag data) = field i data.
Proof.
  intro Hi. unfold field, with_status.
  destruct data as [|t [|s r]]; try reflexivity.
  destruct i as [|[|i]]; try reflexivity. congruence.
Qed.

(** What [ser] holds when the loop starts does not matter: the loop works on
    the lines it is given and stores what is left of them. *)
Lemma loop_ser_irrelevant (buf x : list sentence) (a : app) :
  while_in_waiting L p buf (set_ser x a) = while_in_waiting L p buf a.
Proof.
  revert a. induction buf as [|s buf IH]; intro a.
  - reflexivity.
  - destruct s as [line| |data|exception]; simpl.
    + apply (IH (print (parse_error line) a)).
    + apply IH.
    + destruct (truthy (msg_timestamp L data) && truthy (msg_datestamp data)); [|apply IH].
      destruct (py_combine (msg_datestamp data) (msg_timestamp L data)) as [dt|e];
        [|reflexivity].
      destruct (timezone L (selected_time_zone a)) as [tz|]; [|reflexivity].
      destruct (astimezone dt tz) as [loc|]; [|reflexivity].
      unfold show. destruct p; simpl; [reflexivity|].
      destruct (clock_mode a) as [m|]; [|reflexivity].
      destruct (String.eqb m "digital"); reflexivity.
    + reflexivity.
Qed.

(** A tick at a buffer whose first sentence passing the test is well-formed,
    with a known zone. *)
Lemma update_hit (a : app) (pre post : list sentence) (data : list string)
      (t : time) (d : date) (tz : datetime -> Z) (loc : datetime) :
  ser a = pre ++ RMC data :: post ->
  none_time_bearing L pre = true ->
  msg_timestamp L data = PyObj t ->
  msg_datestamp data = PyObj d ->
  timezone L (selected_time_zone a) = Some tz ->
  astimezone (combine d t) tz = Some loc ->
  ready p a ->
  exists a1,
    show p loc (print_all (diagnostics pre) (enter a)) = inl a1
    /\ update_time L p a = (after 1000 (set_ser post a1), Shown loc).
Proof.
  intros Hser Hpre Ht Hd Htz Hloc Hready.
  destruct (print_all_frame (diagnostics pre) (enter a)) as (_ & Hz & Hm & _).
  assert (Hr : ready p (print_all (diagnostics pre) (enter a))).
  { unfold ready in *. destruct p; [exact I|]. now rewrite Hm. }
  destruct (show_ready p loc _ Hr) as (a1 & Hshow & _).
  exists a1. split; [exact Hshow|].
  unfold update_time. change (ser (enter a)) with (ser a). rewrite Hser.
  rewrite (loop_skip L p _ _ _ Hpre), (loop_hit L p _ _ _ _ _ Ht Hd).
  rewrite Hz. change (selected_time_zone (enter a)) with (selected_time_zone a).
  rewrite Htz, Hloc, Hshow. reflexivity.
Qed.

(** A tick at a buffer in which no sentence passes the test. *)
Lemma update_nothing (a : app) :
  none_time_bearing L (ser a) = true ->
  update_time L p a
  = (after 1000 (set_ser [] (print_all (diagnostics (ser a)) (enter a))), Nothing).
Proof.
  intro H. unfold update_time. change (ser (enter a)) with (ser a).
  now rewrite (loop_nothing L p _ _ H).
Qed.

(** A tick at a buffer whose first sentence passing the test is well-formed,
    with a zone the database does not know: the exception leaves
    [update_time] before [after] is reached. *)
Lemma update_unknown_zone (a : app) (pre post : list sentence) (data : list string)
      (t : time) (d : date) :
  ser a = pre ++ RMC data :: post ->
  none_time_bearing L pre = true ->
  msg_timestamp L data = PyObj t ->
  msg_datestamp data = PyObj d ->
  timezone L (selected_time_zone a) = None ->
  update_time L p a
  = (set_ser post (print_all (diagnostics pre) (enter a)), Raised UnknownTimeZoneError).
Proof.
  intros Hser Hpre Ht Hd Htz.
  destruct (print_all_frame (diagnostics pre) (enter a)) as (_ & Hz & _).
  unfold update_time. change (ser (enter a)) with (ser a). rewrite Hser.
  rewrite (loop_skip L p _ _ _ Hpre), (loop_hit L p _ _ _ _ _ Ht Hd).
  rewrite Hz. change (selected_time_zone (enter a)) with (selected_time_zone a).
  now rewrite Htz.
Qed.

(** A tick that shows a time. *)
Lemma update_shown (a a' : app) (dt : datetime) :
  update_time L p a = (a', Shown dt) ->
  exists pre data post t d tz a1,
    ser a = pre ++ RMC data :: post
    /\ none_time_bearing L pre = true
    /\ msg_timestamp L data = PyObj t
    /\ msg_datestamp data = PyObj d
    /\ timezone L (selected_time_zone a) = Some tz
    /\ astimezone (combine d t) tz = Some dt
    /\ show p dt (print_all (diagnostics pre) (enter a)) = inl a1
    /\ a' = after 1000 (set_ser post a1).
Proof.
  unfold update_time. change (ser (enter a)) with (ser a).
  destruct (while_in_waiting L p (ser a) (enter a)) as [a1 r] eqn:Hloop.
  destruct r as [dt'| |e]; intro H; inversion H; subst.
  destruct (loop_shown_first L p _ _ _ _ Hloop)
    as (pre & data & post & t & d & tz & a2 & Hs & Hpre & Ht & Hd & Htz & Hloc & Hshow & ->).
  exists pre, data, post, t, d, tz, a2. repeat split; assumption.
Qed.

(** The next tick is armed exactly when no exception leaves the loop. *)
Lemma update_time_rearms (a : app) :
  match snd (update_time L p a) with
  | Raised _ => timers (fst (update_time L p a)) = timers a
  | _ => timers (fst (update_time L p a)) = timers a ++ [now a + 1000]
  end.
Proof.
  unfold update_time.
  destruct (first_time_bearing L (ser a))
    as [Hn | [(pre & data & post & Hs & Hpre & Hd) | (pre & exception & post & Hs & Hpre)]].
  - change (ser (enter a)) with (ser a). rewrite (loop_nothing L p _ _ Hn). simpl.
    destruct (print_all_frame (diagnostics (ser a)) (enter a)) as (_ & _ & _ & _ & _ & Ht & Hnow & _).
    now rewrite Ht, Hnow.
  - change (ser (enter a)) with (ser a). rewrite Hs, (loop_skip L p _ _ _ Hpre).
    destruct (print_all_frame (diagnostics pre) (enter a)) as (_ & _ & _ & _ & _ & Ht & Hnow & _).
    simpl. simpl in Hd. rewrite Hd.
    destruct (py_combine (msg_datestamp data) (msg_timestamp L data)) as [dt|e];
      [|simpl; exact Ht].
    destruct (timezone L _) as [tz|]; [|simpl; exact Ht].
    destruct (astimezone dt tz) as [loc|]; [|simpl; exact Ht].
    destruct (show p loc _) as [a1|e] eqn:Hshow; [|simpl; exact Ht].
    destruct (show_frame p _ _ _ Hshow) as (_ & _ & Ht1 & Hn1 & _).
    simpl. now rewrite Ht1, Hn1, Ht, Hnow.
  - change (ser (enter a)) with (ser a).
    rewrite Hs, (loop_skip L p _ _ _ Hpre), loop_fault.
    destruct (print_all_frame (diagnostics pre) (enter a)) as (_ & _ & _ & _ & _ & Ht & _).
    simpl. exact Ht.
Qed.

End Tick.

(** ** Which sentence decides a tick *)

Lemma loop_status_irrelevant (L : Lib) (p : program) (flag : string)
      (data : list string) (post : list sentence) (a : app) :
  while_in_waiting L p (RMC (with_status flag data) :: post) a
  = while_in_waiting L p (RMC data :: post) a.
Proof.
  simpl. unfold msg_timestamp, msg_datestamp.
  rewrite !field_with_status by discriminate. reflexivity.
Qed.

Lemma getattr_obj_nonempty {A : Type} (conv : string -> option A) (v : string) (x : A) :
  getattr conv v = PyObj x -> v <> EmptyString.
Proof.
  unfold getattr. intros H ->. simpl in H. discriminate.
Qed.

(** C1, as amended: a tick shows a time only when the buffer holds an RMC
    sentence whose time and date fields are both populated, and no sentence
    before it passes the test; the fix-validity flag is not consulted: with
    any other flag (['V'] as well as ['A']) in that sentence the tick ends
    with the same result and the same display. *)
Theorem C1_result_only_from_time_bearing_rmc
        (L : Lib) (p : program) (a a' : app) (dt : datetime) :
  update_time L p a = (a', Shown dt) ->
  exists pre data post,
    ser a = pre ++ RMC data :: post
    /\ none_time_bearing L pre = true
    /\ field 0 data <> EmptyString
    /\ field 8 data <> EmptyString
    /\ forall flag,
         update_time L p (set_ser (pre ++ RMC (with_status flag data) :: post) a)
         = (a', Shown dt).
Proof.
  intro H.
  destruct (update_shown L p _ _ _ H)
    as (pre & data & post & t & d & tz & a1 & Hs & Hpre & Ht & Hd & _).
  exists pre, data, post. repeat split; try assumption.
  - exact (getattr_obj_nonempty _ _ _ Ht).
  - exact (getattr_obj_nonempty _ _ _ Hd).
  - intro flag. rewrite <- H. unfold update_time.
    change (enter (set_ser (pre ++ RMC (with_status flag data) :: post) a))
      with (set_ser (pre ++ RMC (with_status flag data) :: post) (enter a)).
    change (ser (set_ser (pre ++ RMC (with_status flag data) :: post) (enter a)))
      with (pre ++ RMC (with_status flag data) :: post).
    change (ser (enter a)) with (ser a).
    rewrite loop_ser_irrelevant, Hs.
    rewrite !(loop_skip L p _ _ _ Hpre), loop_status_irrelevant. reflexivity.
Qed.

Lemma C1_result_only_from_time_bearing_rmc_witness :
  update_time bare GPS_CLOCK2
    (running "UTC" [Other; RMC (rmc_fields "123519" "A" "230394"); Other])
  = (mkApp [Other] "UTC" (Some "digital"%string) (strftime (mkDatetime 1994 3 23 12 35 19 0))
           None [] [1000; 1000] 0 [0],
     Shown (mkDatetime 1994 3 23 12 35 19 0))
  /\ exists pre data post,
       ser (running "UTC" [Other; RMC (rmc_fields "123519" "A" "230394"); Other])
       = pre ++ RMC data :: post
       /\ none_time_bearing bare pre = true
       /\ field 0 data <> EmptyString
       /\ field 8 data <> EmptyString
       /\ forall flag,
            update_time bare GPS_CLOCK2
              (set_ser (pre ++ RMC (with_status flag data) :: post)
                 (running "UTC" [Other; RMC (rmc_fields "123519" "A" "230394"); Other]))
            = (mkApp [Other] "UTC" (Some "digital"%string)
                     (strftime (mkDatetime 1994 3 23 12 35 19 0))
                     None [] [1000; 1000] 0 [0],
               Shown (mkDatetime 1994 3 23 12 35 19 0)).
Proof.
  split.
  - vm_compute. reflexivity.
  - apply (C1_result_only_from_time_bearing_rmc bare GPS_CLOCK2). vm_compute. reflexivity.
Defined.

(** C1 as stated fails: a batch whose only time-bearing sentence is a
    well-formed RMC with fix flag ['V'] yields a result, and the label
    changes, in both programs. *)
Lemma C1_fix_flag_V_updates_display :
  msg_status (rmc_fields "123519" "V" "230394") = "V"%string
  /\ snd (update_time bare GPS_CLOCK
            (running "UTC" [RMC (rmc_fields "123519" "V" "230394")]))
     = Shown (mkDatetime 1994 3 23 12 35 19 0)
  /\ time_label (fst (update_time bare GPS_CLOCK
                        (running "UTC" [RMC (rmc_fields "123519" "V" "230394")])))
     = ("1994-03-23" ++ newline ++ "12:35:19")%string
  /\ snd (update_time bare GPS_CLOCK2
            (running "UTC" [RMC (rmc_fields "123519" "V" "230394")]))
     = Shown (mkDatetime 1994 3 23 12 35 19 0)
  /\ time_label (fst (update_time bare GPS_CLOCK2
                        (running "UTC" [RMC (rmc_fields "123519" "V" "230394")])))
     = ("1994-03-23" ++ newline ++ "12:35:19")%string
  /\ time_label (running "UTC" [RMC (rmc_fields "123519" "V" "230394")])
     = "2024-06-08"%string.
Proof. vm_compute. repeat split. Qed.

(** C5, as amended: when the buffer holds a time-bearing RMC sentence (time
    and date populated, whatever its fix flag), the first such sentence in
    arrival order decides the tick, provided the loop reaches it (reading and
    parsing the records before it raise no exception other than
    [ParseError]): if its time and date fields convert, the zone is known
    and the conversion succeeds (and [clock_mode] is assigned in
    GPS-CLOCK2.py), the result is its zone conversion and the display is
    given that time; the sentences after it change neither. *)
Theorem C5_first_time_bearing_sentence_wins
        (L : Lib) (p : program) (a : app) (pre post : list sentence)
        (data : list string) (t : time) (d : date) (tz : datetime -> Z)
        (loc : datetime) :
  none_time_bearing L pre = true ->
  msg_timestamp L data = PyObj t ->
  msg_datestamp data = PyObj d ->
  timezone L (selected_time_zone a) = Some tz ->
  astimezone (combine d t) tz = Some loc ->
  ready p a ->
  exists a1,
    show p loc (print_all (diagnostics pre) (enter a)) = inl a1
    /\ update_time L p (set_ser (pre ++ RMC data :: post) a)
       = (after 1000 (set_ser post a1), Shown loc).
Proof.
  intros Hpre Ht Hd Htz Hloc Hready.
  destruct (print_all_frame (diagnostics pre) (enter a)) as (_ & Hz & Hm & _).
  assert (Hr : ready p (print_all (diagnostics pre) (enter a))).
  { unfold ready in *. destruct p; [exact I|]. now rewrite Hm. }
  destruct (show_ready p loc _ Hr) as (a1 & Hshow & _).
  exists a1. split; [exact Hshow|].
  unfold update_time.
  change (enter (set_ser (pre ++ RMC data :: post) a))
    with (set_ser (pre ++ RMC data :: post) (enter a)).
  change (ser (set_ser (pre ++ RMC data :: post) (enter a))) with (pre ++ RMC data :: post).
  rewrite loop_ser_irrelevant, (loop_skip L p _ _ _ Hpre), (loop_hit L p _ _ _ _ _ Ht Hd).
  rewrite Hz. change (selected_time_zone (enter a)) with (selected_time_zone a).
  rewrite Htz, Hloc, Hshow. reflexivity.
Qed.

Lemma C5_first_time_bearing_sentence_wins_witness :
  none_time_bearing tokyo
    [Unparseable "$GPGGA,1*00"; Other; RMC (rmc_fields EmptyString "A" "230394")] = true
  /\ msg_timestamp tokyo (rmc_fields "123519" "A" "230394") = PyObj (mkTime 12 35 19 0)
  /\ msg_datestamp (rmc_fields "123519" "A" "230394") = PyObj (mkDate 1994 3 23)
  /\ timezone tokyo (selected_time_zone (running "Asia/Tokyo" [])) = Some (fun _ => 32400)
  /\ astimezone (combine (mkDate 1994 3 23) (mkTime 12 35 19 0)) (fun _ => 32400)
     = Some (mkDatetime 1994 3 23 21 35 19 0)
  /\ ready GPS_CLOCK2 (running "Asia/Tokyo" [])
  /\ exists a1,
       show GPS_CLOCK2 (mkDatetime 1994 3 23 21 35 19 0)
            (print_all
               (diagnostics [Unparseable "$GPGGA,1*00"; Other; RMC (rmc_fields EmptyString "A" "230394")])
               (enter (running "Asia/Tokyo" []))) = inl a1
       /\ update_time tokyo GPS_CLOCK2
            (set_ser
               ([Unparseable "$GPGGA,1*00"; Other; RMC (rmc_fields EmptyString "A" "230394")]
                ++ RMC (rmc_fields "123519" "A" "230394")
                   :: [RMC (rmc_fields "235959" "A" "311299")])
               (running "Asia/Tokyo" []))
          = (after 1000 (set_ser [RMC (rmc_fields "235959" "A" "311299")] a1),
             Shown (mkDatetime 1994 3 23 21 35 19 0)).
Proof.
  split; [reflexivity|]. split; [reflexivity|]. split; [reflexivity|].
  split; [reflexivity|]. split; [reflexivity|]. split; [discriminate|].
  apply (C5_first_time_bearing_sentence_wins tokyo GPS_CLOCK2 (running "Asia/Tokyo" [])
           [Unparseable "$GPGGA,1*00"; Other; RMC (rmc_fields EmptyString "A" "230394")]
           [RMC (rmc_fields "235959" "A" "311299")]
           (rmc_fields "123519" "A" "230394")
           (mkTime 12 35 19 0) (mkDate 1994 3 23) (fun _ => 32400)
           (mkDatetime 1994 3 23 21 35 19 0));
    try reflexivity.
  discriminate.
Defined.

(** C5 as stated fails: in a batch whose only sentence with a valid fix is
    the second one, the result is the conversion of the sentence before it,
    whose fix flag is ['V'], not that of the first valid one. *)
Lemma C5_invalid_fix_sentence_wins :
  msg_status (rmc_fields "123519" "V" "230394") = "V"%string
  /\ msg_status (rmc_fields "123520" "A" "230394") = "A"%string
  /\ astimezone (mkDatetime 1994 3 23 12 35 20 0) utc = Some (mkDatetime 1994 3 23 12 35 20 0)
  /\ snd (update_time bare GPS_CLOCK
            (running "UTC" [RMC (rmc_fields "123519" "V" "230394");
                            RMC (rmc_fields "123520" "A" "230394")]))
     = Shown (mkDatetime 1994 3 23 12 35 19 0)
  /\ snd (update_time bare GPS_CLOCK2
            (running "UTC" [RMC (rmc_fields "123519" "V" "230394");
                            RMC (rmc_fields "123520" "A" "230394")]))
     = Shown (mkDatetime 1994 3 23 12 35 19 0)
  /\ Shown (mkDatetime 1994 3 23 12 35 19 0) <> Shown (mkDatetime 1994 3 23 12 35 20 0).
Proof. vm_compute. repeat split. discriminate. Qed.




(** C8, as amended: for every batch without a time-bearing RMC sentence
    (empty, all-Other, records on which [pynmea2.parse] raises [ParseError],
    or RMC sentences whose time or date field is empty, whatever their fix
    flag) and without a record on which reading or parsing raises another
    exception, the tick returns nothing, the label and the canvas keep what
    they showed, and the buffer is drained. *)
Theorem C8_no_time_bearing_sentence_no_result (L : Lib) (p : program) (a : app) :
  forallb lacks_time_or_date (ser a) = true ->
  snd (update_time L p a) = Nothing
  /\ time_label (fst (update_time L p a)) = time_label a
  /\ canvas (fst (update_time L p a)) = canvas a
  /\ ser (fst (update_time L p a)) = []
  /\ stdout (fst (update_time L p a)) = stdout a ++ diagnostics (ser a).
Proof.
  intro H. rewrite (none_time_bearing_lacks L) in H.
  rewrite (update_nothing L p a H). simpl.
  destruct (print_all_frame (diagnostics (ser a)) (enter a)) as (_ & _ & _ & Hl & Hc & _).
  rewrite Hl, Hc, stdout_print_all. repeat split.
Qed.

Lemma C8_no_time_bearing_sentence_no_result_witness :
  forallb lacks_time_or_date
    (ser (running "UTC" [Other; Unparseable "$GPRMC,123519,A*00";
                         RMC (rmc_fields EmptyString "V" EmptyString);
                         RMC (rmc_fields "123519" "A" EmptyString)])) = true
  /\ snd (update_time bare GPS_CLOCK2
            (running "UTC" [Other; Unparseable "$GPRMC,123519,A*00";
                            RMC (rmc_fields EmptyString "V" EmptyString);
                            RMC (rmc_fields "123519" "A" EmptyString)])) = Nothing
  /\ time_label (fst (update_time bare GPS_CLOCK2
                        (running "UTC" [Other; Unparseable "$GPRMC,123519,A*00";
                                        RMC (rmc_fields EmptyString "V" EmptyString);
                                        RMC (rmc_fields "123519" "A" EmptyString)])))
     = "2024-06-08"%string.
Proof.
  split; [reflexivity|].
  destruct (C8_no_time_bearing_sentence_no_result bare GPS_CLOCK2
              (running "UTC" [Other; Unparseable "$GPRMC,123519,A*00";
                              RMC (rmc_fields EmptyString "V" EmptyString);
                              RMC (rmc_fields "123519" "A" EmptyString)]))
    as (H1 & H2 & _); [reflexivity|].
  split; [exact H1 | exact H2].
Defined.

(** C8 as stated fails: a batch all of whose sentences have an invalid fix
    (flag ['V']) yields a result and replaces the label. *)
Lemma C8_all_fix_invalid_batch_shows_time :
  forallb (fun data => String.eqb (msg_status data) "V")
          [rmc_fields "123519" "V" "230394"; rmc_fields "123520" "V" "230394"] = true
  /\ snd (update_time bare GPS_CLOCK
            (running "UTC" [RMC (rmc_fields "123519" "V" "230394");
                            RMC (rmc_fields "123520" "V" "230394")]))
     = Shown (mkDatetime 1994 3 23 12 35 19 0)
  /\ time_label (fst (update_time bare GPS_CLOCK
                        (running "UTC" [RMC (rmc_fields "123519" "V" "230394");
                                        RMC (rmc_fields "123520" "V" "230394")])))
     <> time_label (running "UTC" [RMC (rmc_fields "123519" "V" "230394");
                                   RMC (rmc_fields "123520" "V" "230394")])
  /\ snd (update_time bare GPS_CLOCK2
            (running "UTC" [RMC (rmc_fields "123519" "V" "230394");
                            RMC (rmc_fields "123520" "V" "230394")]))
     = Shown (mkDatetime 1994 3 23 12 35 19 0).
Proof. vm_compute. repeat split. discriminate. Qed.

(** ** Unknown zones and the schedule *)

(** C2, as amended: in a tick that finds a time-bearing sentence while the
    configured zone identifier is not known to the zone database, there is no
    fall-back to UTC: no time is shown for that tick, the label and the
    canvas keep what they showed, and nothing is printed about the zone (the
    only diagnostics are the parse errors of the records read before). *)
Theorem C2_unknown_zone_no_utc_fallback
        (L : Lib) (p : program) (a : app) (pre post : list sentence)
        (data : list string) :
  ser a = pre ++ RMC data :: post ->
  none_time_bearing L pre = true ->
  time_bearing L (RMC data) = true ->
  timezone L (selected_time_zone a) = None ->
  (forall dt, snd (update_time L p a) <> Shown dt)
  /\ time_label (fst (update_time L p a)) = time_label a
  /\ canvas (fst (update_time L p a)) = canvas a
  /\ stdout (fst (update_time L p a)) = stdout a ++ diagnostics pre.
Proof.
  intros Hs Hpre Hd Htz. unfold update_time.
  change (ser (enter a)) with (ser a). rewrite Hs, (loop_skip L p _ _ _ Hpre).
  destruct (print_all_frame (diagnostics pre) (enter a)) as (_ & Hz & _ & Hl & Hc & _).
  pose proof (stdout_print_all (diagnostics pre) (enter a)) as Hout.
  simpl in Hd. simpl. rewrite Hd, Hz.
  change (selected_time_zone (enter a)) with (selected_time_zone a). rewrite Htz.
  destruct (py_combine (msg_datestamp data) (msg_timestamp L data)) as [dt|e]; simpl;
    rewrite Hl, Hc, Hout; repeat split; discriminate.
Qed.

Lemma C2_unknown_zone_no_utc_fallback_witness :
  ser (running "Mars/Olympus" [Unparseable "$GP"; RMC (rmc_fields "123519" "A" "230394")])
  = [Unparseable "$GP"] ++ RMC (rmc_fields "123519" "A" "230394") :: []
  /\ none_time_bearing tokyo [Unparseable "$GP"] = true
  /\ time_bearing tokyo (RMC (rmc_fields "123519" "A" "230394")) = true
  /\ timezone tokyo (selected_time_zone
                       (running "Mars/Olympus"
                          [Unparseable "$GP"; RMC (rmc_fields "123519" "A" "230394")])) = None
  /\ time_label (fst (update_time tokyo GPS_CLOCK2
                        (running "Mars/Olympus"
                           [Unparseable "$GP"; RMC (rmc_fields "123519" "A" "230394")])))
     = time_label (running "Mars/Olympus"
                     [Unparseable "$GP"; RMC (rmc_fields "123519" "A" "230394")]).
Proof.
  split; [reflexivity|]. split; [reflexivity|]. split; [reflexivity|]. split; [reflexivity|].
  apply (C2_unknown_zone_no_utc_fallback tokyo GPS_CLOCK2
           (running "Mars/Olympus" [Unparseable "$GP"; RMC (rmc_fields "123519" "A" "230394")])
           [Unparseable "$GP"] [] (rmc_fields "123519" "A" "230394"));
    reflexivity.
Defined.

(** C2 as stated fails: with a zone identifier the database does not know,
    the tick ends in [UnknownTimeZoneError]; the time is not shown in UTC,
    the label keeps its text and nothing is printed. *)
Lemma C2_unknown_zone_raises :
  timezone bare "Mars/Olympus" = None
  /\ astimezone (mkDatetime 1994 3 23 12 35 19 0) utc = Some (mkDatetime 1994 3 23 12 35 19 0)
  /\ update_time bare GPS_CLOCK
       (running "Mars/Olympus" [RMC (rmc_fields "123519" "A" "230394")])
     = (mkApp [] "Mars/Olympus" (Some "digital"%string) "2024-06-08" None [] [1000] 0 [0],
        Raised UnknownTimeZoneError)
  /\ update_time bare GPS_CLOCK2
       (running "Mars/Olympus" [RMC (rmc_fields "123519" "A" "230394")])
     = (mkApp [] "Mars/Olympus" (Some "digital"%string) "2024-06-08" None [] [1000] 0 [0],
        Raised UnknownTimeZoneError).
Proof. vm_compute. repeat split. Qed.

(** C3, at the failing input: with the zone identifier [Mars/Olympus] in the
    configuration and one valid RMC line waiting, the callback that fires
    after one second ends in [UnknownTimeZoneError] without re-arming: no
    timer is pending afterwards, and however long the event loop runs and
    whatever the receiver delivers, [update_time] is never entered again. A
    record that fails to parse does not have this effect (see
    [update_time_rearms]). *)
Theorem C3_unknown_zone_stops_the_schedule :
  snd (update_time bare GPS_CLOCK
         (set_timers [] (running "Mars/Olympus" [RMC (rmc_fields "123519" "A" "230394")])))
  = Raised UnknownTimeZoneError
  /\ timers (fst (update_time bare GPS_CLOCK
                    (set_timers []
                       (running "Mars/Olympus" [RMC (rmc_fields "123519" "A" "230394")]))))
     = []
  /\ timers (run bare GPS_CLOCK [Elapse 1000]
               (running "Mars/Olympus" [RMC (rmc_fields "123519" "A" "230394")])) = []
  /\ ticks (run bare GPS_CLOCK
              [Elapse 1000; Receive [RMC (rmc_fields "123520" "A" "230394")]; Elapse 5000]
              (running "Mars/Olympus" [RMC (rmc_fields "123519" "A" "230394")])) = [1000]
  /\ timers (run bare GPS_CLOCK2 [Elapse 1000]
               (running "Mars/Olympus" [RMC (rmc_fields "123519" "A" "230394")])) = []
  /\ ticks (run bare GPS_CLOCK2
              [Elapse 1000; Receive [RMC (rmc_fields "123520" "A" "230394")]; Elapse 5000]
              (running "Mars/Olympus" [RMC (rmc_fields "123519" "A" "230394")])) = [1000]
  /\ ticks (run bare GPS_CLOCK [Elapse 3000]
              (running "UTC" [Unparseable "$GPRMC,123519,A*00"])) = [1000; 2000; 3000].
Proof. vm_compute. repeat split. Qed.

(** ** How many timers are pending *)

Lemma update_time_timers_le (L : Lib) (p : program) (a : app) :
  (List.length (timers (fst (update_time L p a))) <= S (List.length (timers a)))%nat.
Proof.
  pose proof (update_time_rearms L p a) as H.
  destruct (snd (update_time L p a)); rewrite H; rewrite ?length_app; simpl; lia.
Qed.

Lemma dispatch_single_timer (L : Lib) (p : program) (a : app) :
  (List.length (timers a) <= 1)%nat -> (List.length (timers (dispatch L p a)) <= 1)%nat.
Proof.
  unfold dispatch. destruct (timers a) as [|x [|y l]]; simpl; intro H; try lia.
  destruct (x <=? now a); simpl; [|lia].
  apply (update_time_timers_le L p (set_timers [] a)).
Qed.

Lemma elapse_single_timer (L : Lib) (p : program) (ms : nat) (a : app) :
  (List.length (timers a) <= 1)%nat -> (List.length (timers (elapse L p ms a)) <= 1)%nat.
Proof.
  revert a. induction ms as [|k IH]; intros a H; simpl; [exact H|].
  apply IH. apply dispatch_single_timer. exact H.
Qed.

(** In GPS-CLOCK.py nothing but the callback itself calls [update_time]: no
    sequence of events leaves more than one timer pending. *)
Lemma GPS_CLOCK_single_timer (L : Lib) (es : list event) (a : app) :
  (List.length (timers a) <= 1)%nat ->
  (List.length (timers (run L GPS_CLOCK es a)) <= 1)%nat.
Proof.
  unfold run. revert a. induction es as [|e es IH]; intros a H; simpl; [exact H|].
  apply IH. destruct e as [ms|ls|m|z]; simpl; try exact H.
  apply elapse_single_timer. exact H.
Qed.

(** In GPS-CLOCK2.py every choice of a clock mode leaves one more timer
    pending (here with nothing waiting on the serial line). *)
Lemma mode_switches_accumulate_timers (L : Lib) (modes : list string) (a : app) :
  ser a = [] ->
  List.length (timers (run L GPS_CLOCK2 (map SetClockMode modes) a))
  = (List.length (timers a) + List.length modes)%nat.
Proof.
  unfold run. revert a. induction modes as [|m modes IH]; intros a Hs; simpl.
  - lia.
  - unfold set_clock_mode, update_time.
    change (ser (enter (set_mode (Some m) a))) with (ser a). rewrite Hs. simpl.
    rewrite IH by reflexivity. simpl. rewrite length_app. simpl. lia.
Qed.

(** C4, at the failing input: GPS-CLOCK2.py is started with nothing waiting
    on the serial line and the user picks "Analog" 300 ms later.
    [set_clock_mode] runs [update_time] at once, and that call arms a timer
    of its own next to the one already pending: from then on two callbacks
    re-arm themselves, and the pipeline runs twice in every second. *)
Theorem C4_mode_switch_starts_second_timer :
  init bare GPS_CLOCK2 "UTC" []
  = inl (mkApp [] "UTC" (Some "digital"%string) EmptyString None [] [1000] 0 [0])
  /\ timers (run bare GPS_CLOCK2 [Elapse 300; SetClockMode "analog"]
               (mkApp [] "UTC" (Some "digital"%string) EmptyString None [] [1000] 0 [0]))
     = [1000; 1300]
  /\ ticks (run bare GPS_CLOCK2 [Elapse 300; SetClockMode "analog"; Elapse 2000]
              (mkApp [] "UTC" (Some "digital"%string) EmptyString None [] [1000] 0 [0]))
     = [0; 300; 1000; 1300; 2000; 2300]
  /\ cycles_between 1000 2000
       (run bare GPS_CLOCK2 [Elapse 300; SetClockMode "analog"; Elapse 2000]
          (mkApp [] "UTC" (Some "digital"%string) EmptyString None [] [1000] 0 [0]))
     = 2%nat
  /\ cycles_between 1000 2000
       (run bare GPS_CLOCK2
          [Elapse 300; SetClockMode "analog"; SetClockMode "digital"; Elapse 2000]
          (mkApp [] "UTC" (Some "digital"%string) EmptyString None [] [1000] 0 [0]))
     = 3%nat.
Proof. vm_compute. repeat split. Qed.

(** ** Field conversion *)

Lemma upto_In (lo x : Z) (n : nat) :
  lo <= x < lo + Z.of_nat n -> In x (upto lo n).
Proof.
  intro H. unfold upto. apply in_map_iff. exists (Z.to_nat (x - lo)). split.
  - lia.
  - apply in_seq. lia.
Qed.

Lemma all3_true (f : Z -> Z -> Z -> bool) (xs ys zs : list Z) (x y z : Z) :
  all3 f xs ys zs = true -> In x xs -> In y ys -> In z zs -> f x y z = true.
Proof.
  unfold all3. intros H Hx Hy Hz.
  rewrite forallb_forall in H. specialize (H x Hx).
  rewrite forallb_forall in H. specialize (H y Hy).
  rewrite forallb_forall in H. exact (H z Hz).
Qed.

Lemma date_eqb_eq (x y : date) : date_eqb x y = true -> x = y.
Proof.
  unfold date_eqb. destruct x, y; simpl. intro H.
  apply andb_prop in H. destruct H as [H Hd]. apply andb_prop in H. destruct H as [Hy Hm].
  apply Z.eqb_eq in Hy, Hm, Hd. congruence.
Qed.

Lemma days_in_month_le (y m : Z) : 1 <= m <= 12 -> 28 <= days_in_month y m <= 31.
Proof.
  intro H. unfold days_in_month.
  assert (Hm : m = 1 \/ m = 2 \/ m = 3 \/ m = 4 \/ m = 5 \/ m = 6 \/ m = 7 \/ m = 8
               \/ m = 9 \/ m = 10 \/ m = 11 \/ m = 12) by lia.
  destruct (is_leap y);
    repeat (destruct Hm as [-> | Hm]; [vm_compute; split; discriminate|]);
    subst; vm_compute; split; discriminate.
Qed.

Lemma check_date_fields_bounds (y m d : Z) :
  check_date_fields y m d = true ->
  1 <= y <= 9999 /\ 1 <= m <= 12 /\ 1 <= d <= 31.
Proof.
  unfold check_date_fields. intro H.
  repeat (apply andb_prop in H; destruct H as [H ?]).
  assert (Hm : 1 <= m <= 12) by lia.
  pose proof (days_in_month_le y m Hm). lia.
Qed.

Lemma century_year_window (yy : Z) :
  0 <= yy <= 99 -> 1969 <= century_year yy <= 2068 /\ century_year yy mod 100 = yy.
Proof.
  intro H. unfold century_year. destruct (yy <=? 68) eqn:E.
  - apply Z.leb_le in E. split; [lia|].
    replace (yy + 2000) with (yy + 20 * 100) by lia.
    rewrite Z.mod_add by lia. apply Z.mod_small. lia.
  - apply Z.leb_gt in E. split; [lia|].
    replace (yy + 1900) with (yy + 19 * 100) by lia.
    rewrite Z.mod_add by lia. apply Z.mod_small. lia.
Qed.

Lemma datestamp_all_dates :
  all3 datestamp_ok (upto 1 31) (upto 1 12) (upto 0 100) = true.
Proof. vm_compute. reflexivity. Qed.

(** [datestamp] on a six-digit date field. *)
Lemma datestamp_ddmmyy (d m yy : Z) :
  0 <= yy <= 99 ->
  check_date_fields (century_year yy) m d = true ->
  datestamp (ddmmyy d m yy) = Some (mkDate (century_year yy) m d).
Proof.
  intros Hyy Hc.
  destruct (check_date_fields_bounds _ _ _ Hc) as (_ & Hm & Hd).
  pose proof (all3_true datestamp_ok _ _ _ d m yy datestamp_all_dates) as H.
  assert (Hok : datestamp_ok d m yy = true).
  { apply H; apply upto_In; simpl; lia. }
  unfold datestamp_ok in Hok. rewrite Hc in Hok. simpl in Hok.
  destruct (datestamp (ddmmyy d m yy)) as [x|]; [|discriminate].
  now rewrite (date_eqb_eq _ _ Hok).
Qed.

Lemma ddmmyy_nonempty (d m yy : Z) : String.eqb (ddmmyy d m yy) EmptyString = false.
Proof. reflexivity. Qed.

Lemma msg_datestamp_ddmmyy (data : list string) (d m yy : Z) :
  0 <= yy <= 99 ->
  check_date_fields (century_year yy) m d = true ->
  field 8 data = ddmmyy d m yy ->
  msg_datestamp data = PyObj (mkDate (century_year yy) m d).
Proof.
  intros Hyy Hc Hf. unfold msg_datestamp, getattr.
  rewrite Hf, ddmmyy_nonempty, (datestamp_ddmmyy _ _ _ Hyy Hc). reflexivity.
Qed.

(** C7, as amended: the two-digit year [yy] of a date field is mapped into
    the window 1969-2068: to [2000 + yy] for [yy] from 00 to 68 and to
    [1900 + yy] for [yy] from 69 to 99; day and month are taken as they
    are. *)
Theorem C7_two_digit_year_window (data : list string) (d m yy : Z) :
  0 <= yy <= 99 ->
  check_date_fields (century_year yy) m d = true ->
  field 8 data = ddmmyy d m yy ->
  msg_datestamp data
  = PyObj (mkDate (if yy <=? 68 then yy + 2000 else yy + 1900) m d)
  /\ 1969 <= (if yy <=? 68 then yy + 2000 else yy + 1900) <= 2068.
Proof.
  intros Hyy Hc Hf. split.
  - exact (msg_datestamp_ddmmyy data d m yy Hyy Hc Hf).
  - exact (proj1 (century_year_window yy Hyy)).
Qed.

Lemma C7_two_digit_year_window_witness :
  0 <= 94 <= 99
  /\ check_date_fields (century_year 94) 3 23 = true
  /\ field 8 (rmc_fields "123519" "A" "230394") = ddmmyy 23 3 94
  /\ msg_datestamp (rmc_fields "123519" "A" "230394") = PyObj (mkDate 1994 3 23)
  /\ 1969 <= 1994 <= 2068.
Proof.
  split; [lia|]. split; [reflexivity|]. split; [reflexivity|].
  apply (C7_two_digit_year_window (rmc_fields "123519" "A" "230394") 23 3 94);
    [lia | reflexivity | reflexivity].
Defined.

(** C7 as stated fails: the year digits 94 give the calendar year 1994, not
    2094, and the year shown for the sentence is 1994. *)
Lemma C7_year_94_is_1994 :
  msg_datestamp (rmc_fields "123519" "A" "230394") = PyObj (mkDate 1994 3 23)
  /\ 1994 <> 2000 + 94
  /\ snd (update_time bare GPS_CLOCK
            (running "UTC" [RMC (rmc_fields "123519" "A" "230394")]))
     = Shown (mkDatetime 1994 3 23 12 35 19 0).
Proof. vm_compute. repeat split. discriminate. Qed.

(** ** Round trip at UTC *)

Lemma int_pad2_all : forallb int_pad2_ok (upto 0 100) = true.
Proof. vm_compute. reflexivity. Qed.

Lemma py_int_pad2 (n : Z) : 0 <= n <= 99 -> py_int (pad2 n) = Some n.
Proof.
  intro H. pose proof int_pad2_all as A. rewrite forallb_forall in A.
  assert (Hn : int_pad2_ok n = true) by (apply A, upto_In; simpl; lia).
  unfold int_pad2_ok in Hn. destruct (py_int (pad2 n)) as [k|]; [|discriminate].
  apply Z.eqb_eq in Hn. now subst.
Qed.

Lemma check_time_fields_true (h mi s us : Z) :
  0 <= h <= 23 -> 0 <= mi <= 59 -> 0 <= s <= 59 -> 0 <= us <= 999999 ->
  check_time_fields h mi s us = true.
Proof.
  intros Hh Hmi Hs Hus. unfold check_time_fields.
  repeat (apply andb_true_intro; split); apply Z.leb_le; lia.
Qed.

(** [timestamp] on a time field [hhmmss] with or without a fraction. *)
Lemma timestamp_hhmmss (L : Lib) (h mi s us : Z) (frac : string) :
  0 <= h <= 23 -> 0 <= mi <= 59 -> 0 <= s <= 59 ->
  fraction_ok L frac us ->
  timestamp L (hhmmss h mi s ++ frac) = Some (mkTime h mi s us).
Proof.
  intros Hh Hmi Hs Hf. unfold timestamp.
  change (string_from 6 (hhmmss h mi s ++ frac)) with frac.
  change (substring 0 2 (hhmmss h mi s ++ frac)) with (pad2 h).
  change (substring 2 2 (hhmmss h mi s ++ frac)) with (pad2 mi).
  replace (substring 4 2 (hhmmss h mi s ++ frac)) with (pad2 s)
    by (unfold hhmmss, pad2; simpl; now destruct frac).
  rewrite !py_int_pad2 by lia.
  destruct Hf as [[-> ->] | (Hne & Hus & Hr)].
  - simpl. now rewrite check_time_fields_true by lia.
  - destruct (String.eqb_spec frac EmptyString) as [E|_]; [contradiction|].
    rewrite Hus. now rewrite check_time_fields_true by lia.
Qed.

Lemma msg_timestamp_hhmmss (L : Lib) (data : list string) (h mi s us : Z) (frac : string) :
  0 <= h <= 23 -> 0 <= mi <= 59 -> 0 <= s <= 59 ->
  fraction_ok L frac us ->
  field 0 data = (hhmmss h mi s ++ frac)%string ->
  msg_timestamp L data = PyObj (mkTime h mi s us).
Proof.
  intros Hh Hmi Hs Hf H0. unfold msg_timestamp, getattr. rewrite H0.
  change (String.eqb (hhmmss h mi s ++ frac) EmptyString) with false.
  now rewrite (timestamp_hhmmss L h mi s us frac).
Qed.

Lemma ordinal_all_dates :
  all3 ordinal_ok (upto 1969 100) (upto 1 12) (upto 1 31) = true.
Proof. vm_compute. reflexivity. Qed.

Lemma ord2ymd_ymd2ord (y m d : Z) :
  1969 <= y <= 2068 ->
  check_date_fields y m d = true ->
  0 < ymd2ord y m d <= MAXORDINAL /\ ord2ymd (ymd2ord y m d) = (y, m, d).
Proof.
  intros Hy Hc. destruct (check_date_fields_bounds _ _ _ Hc) as (_ & Hm & Hd).
  assert (Hok : ordinal_ok y m d = true).
  { apply (all3_true ordinal_ok _ _ _ y m d ordinal_all_dates); apply upto_In; simpl; lia. }
  unfold ordinal_ok in Hok. rewrite Hc in Hok. simpl in Hok.
  apply andb_prop in Hok. destruct Hok as [Hr He].
  apply andb_prop in Hr. destruct Hr as [Hlo Hhi].
  apply Z.ltb_lt in Hlo. apply Z.leb_le in Hhi. split; [lia|].
  destruct (ord2ymd (ymd2ord y m d)) as [[y' m'] d'].
  apply andb_prop in He. destruct He as [He Hd']. apply andb_prop in He. destruct He as [Hy' Hm'].
  apply Z.eqb_eq in Hy', Hm', Hd'. congruence.
Qed.

(** Adding nothing to a date and time of the years 1969-2068 gives it back. *)
Lemma add_seconds_0 (y m d h mi s us : Z) :
  1969 <= y <= 2068 ->
  check_date_fields y m d = true ->
  0 <= h <= 23 -> 0 <= mi <= 59 -> 0 <= s <= 59 ->
  add_seconds (mkDatetime y m d h mi s us) 0 = Some (mkDatetime y m d h mi s us).
Proof.
  intros Hy Hc Hh Hmi Hs.
  destruct (ord2ymd_ymd2ord y m d Hy Hc) as [Hn Hord].
  unfold add_seconds. simpl.
  set (n := ymd2ord y m d) in *.
  assert (Hdays : (n * 86400 + h * 3600 + mi * 60 + s + 0) / 86400 = n).
  { symmetry. apply (Z.div_unique _ _ _ (h * 3600 + mi * 60 + s)); lia. }
  assert (Hsecs : (n * 86400 + h * 3600 + mi * 60 + s + 0) mod 86400 = h * 3600 + mi * 60 + s).
  { symmetry. apply (Z.mod_unique _ _ n); lia. }
  rewrite Hdays, Hsecs, Hord.
  assert (Hlo : (0 <? n) = true) by (apply Z.ltb_lt; lia).
  assert (Hhi : (n <=? MAXORDINAL) = true) by (apply Z.leb_le; lia).
  rewrite Hlo, Hhi. simpl.
  assert (H1 : (h * 3600 + mi * 60 + s) / 3600 = h).
  { symmetry. apply (Z.div_unique _ _ _ (mi * 60 + s)); lia. }
  assert (H2 : (h * 3600 + mi * 60 + s) mod 3600 = mi * 60 + s).
  { symmetry. apply (Z.mod_unique _ _ h); lia. }
  rewrite H1, H2.
  assert (H3 : (mi * 60 + s) / 60 = mi).
  { symmetry. apply (Z.div_unique _ _ _ s); lia. }
  assert (H4 : (mi * 60 + s) mod 60 = s).
  { symmetry. apply (Z.mod_unique _ _ mi); lia. }
  now rewrite H3, H4.
Qed.

(** What the display branch writes. *)
Lemma show_display (p : program) (dt : datetime) (a a1 : app) :
  show p dt a = inl a1 ->
  if digital p a
  then time_label a1 = strftime dt /\ canvas a1 = canvas a
  else canvas a1 = Some (hour dt mod 12, minute dt, second dt)
       /\ time_label a1 = time_label a.
Proof.
  unfold show, digital. destruct p.
  - intro H. inversion H. split; reflexivity.
  - destruct (clock_mode a) as [m|]; [|discriminate].
    destruct (String.eqb m "digital"); intro H; inversion H; split; reflexivity.
Qed.

(** C9: a well-formed RMC sentence with valid fix, time [hhmmss] (with or
    without a fraction of a second) and date [ddmmyy], read with the zone set
    to UTC, gives the calendar fields of the sentence itself: month, day,
    hour, minute and second as written, and the year of the window 1969-2068
    whose last two digits are [yy]; the label shows these very fields (the
    analog face the hands for them). *)
Theorem C9_utc_round_trip
        (L : Lib) (p : program) (a : app) (data : list string) (post : list sentence)
        (h mi s us d m yy : Z) (frac : string) :
  0 <= h <= 23 -> 0 <= mi <= 59 -> 0 <= s <= 59 ->
  fraction_ok L frac us ->
  0 <= yy <= 99 ->
  check_date_fields (century_year yy) m d = true ->
  field 0 data = (hhmmss h mi s ++ frac)%string ->
  msg_status data = "A"%string ->
  field 8 data = ddmmyy d m yy ->
  upper (selected_time_zone a) = "UTC"%string ->
  ready p a ->
  snd (update_time L p (set_ser (RMC data :: post) a))
  = Shown (mkDatetime (century_year yy) m d h mi s us)
  /\ century_year yy mod 100 = yy
  /\ if digital p a
     then time_label (fst (update_time L p (set_ser (RMC data :: post) a)))
          = (pad4 (century_year yy) ++ "-" ++ pad2 m ++ "-" ++ pad2 d ++ newline
             ++ pad2 h ++ ":" ++ pad2 mi ++ ":" ++ pad2 s)%string
     else canvas (fst (update_time L p (set_ser (RMC data :: post) a)))
          = Some (h mod 12, mi, s).
Proof.
  intros Hh Hmi Hs Hf Hyy Hc H0 _ H8 Hz Hready.
  pose proof (msg_timestamp_hhmmss L data h mi s us frac Hh Hmi Hs Hf H0) as Ht.
  pose proof (msg_datestamp_ddmmyy data d m yy Hyy Hc H8) as Hd.
  destruct (century_year_window yy Hyy) as [Hw Hmod].
  assert (Htz : timezone L (selected_time_zone (set_ser (RMC data :: post) a)) = Some utc).
  { unfold timezone. simpl. now rewrite Hz. }
  assert (Hloc : astimezone (combine (mkDate (century_year yy) m d) (mkTime h mi s us)) utc
                 = Some (mkDatetime (century_year yy) m d h mi s us)).
  { unfold astimezone, utc, combine. simpl. now apply add_seconds_0. }
  assert (Hr : ready p (set_ser (RMC data :: post) a)).
  { destruct p; [exact I | exact Hready]. }
  destruct (update_hit L p (set_ser (RMC data :: post) a) [] post data _ _ _ _
              eq_refl eq_refl Ht Hd Htz Hloc Hr) as (a1 & Hshow & Hup).
  rewrite Hup. split; [reflexivity|]. split; [exact Hmod|].
  apply show_display in Hshow. simpl in Hshow.
  change (digital p (enter (set_ser (RMC data :: post) a))) with (digital p a) in Hshow.
  destruct (digital p a); simpl; destruct Hshow as [H1 H2]; exact H1.
Qed.

Lemma C9_utc_round_trip_witness :
  fraction_ok bare EmptyString 0
  /\ check_date_fields (century_year 94) 3 23 = true
  /\ field 0 (rmc_fields "123519" "A" "230394") = (hhmmss 12 35 19 ++ EmptyString)%string
  /\ msg_status (rmc_fields "123519" "A" "230394") = "A"%string
  /\ field 8 (rmc_fields "123519" "A" "230394") = ddmmyy 23 3 94
  /\ upper (selected_time_zone (running "utc" [])) = "UTC"%string
  /\ ready GPS_CLOCK2 (running "utc" [])
  /\ snd (update_time bare GPS_CLOCK2
            (set_ser (RMC (rmc_fields "123519" "A" "230394") :: [Other]) (running "utc" [])))
     = Shown (mkDatetime 1994 3 23 12 35 19 0)
  /\ time_label (fst (update_time bare GPS_CLOCK2
                        (set_ser (RMC (rmc_fields "123519" "A" "230394") :: [Other])
                                 (running "utc" []))))
     = ("1994-03-23" ++ newline ++ "12:35:19")%string.
Proof.
  split; [left; split; reflexivity|]. split; [reflexivity|]. split; [reflexivity|].
  split; [reflexivity|]. split; [reflexivity|]. split; [reflexivity|].
  split; [discriminate|].
  destruct (C9_utc_round_trip bare GPS_CLOCK2 (running "utc" [])
              (rmc_fields "123519" "A" "230394") [Other] 12 35 19 0 23 3 94 EmptyString)
    as (H1 & _ & H3);
    try lia; try reflexivity; try discriminate.
  - left; split; reflexivity.
  - split; [exact H1 | exact H3].
Defined.

(** ** Midnight *)

(** C10: a well-formed RMC sentence with valid fix whose time of day is
    all zeros ([000000], with or without a fraction of a second) passes the
    test like any other (a [time] object is true, also at midnight), and the
    tick shows its zone conversion: midnight UTC is neither suppressed nor
    treated apart. *)
Theorem C10_midnight_is_shown
        (L : Lib) (p : program) (a : app) (data : list string) (post : list sentence)
        (frac : string) (us : Z) (d : date) (tz : datetime -> Z) (loc : datetime) :
  field 0 data = ("000000" ++ frac)%string ->
  fraction_ok L frac us ->
  msg_status data = "A"%string ->
  msg_datestamp data = PyObj d ->
  timezone L (selected_time_zone a) = Some tz ->
  astimezone (combine d (mkTime 0 0 0 us)) tz = Some loc ->
  ready p a ->
  msg_timestamp L data = PyObj (mkTime 0 0 0 us)
  /\ time_bearing L (RMC data) = true
  /\ snd (update_time L p (set_ser (RMC data :: post) a)) = Shown loc
  /\ if digital p a
     then time_label (fst (update_time L p (set_ser (RMC data :: post) a))) = strftime loc
     else canvas (fst (update_time L p (set_ser (RMC data :: post) a)))
          = Some (hour loc mod 12, minute loc, second loc).
Proof.
  intros H0 Hf _ Hd Htz Hloc Hready.
  assert (Ht : msg_timestamp L data = PyObj (mkTime 0 0 0 us)).
  { apply (msg_timestamp_hhmmss L data 0 0 0 us frac); try lia; assumption. }
  split; [exact Ht|]. split; [simpl; now rewrite Ht, Hd|].
  assert (Hr : ready p (set_ser (RMC data :: post) a)).
  { destruct p; [exact I | exact Hready]. }
  destruct (update_hit L p (set_ser (RMC data :: post) a) [] post data _ _ tz loc
              eq_refl eq_refl Ht Hd Htz Hloc Hr) as (a1 & Hshow & Hup).
  rewrite Hup. split; [reflexivity|].
  apply show_display in Hshow. simpl in Hshow.
  change (digital p (enter (set_ser (RMC data :: post) a))) with (digital p a) in Hshow.
  destruct (digital p a); simpl; destruct Hshow as [H1 H2]; exact H1.
Qed.

Lemma C10_midnight_is_shown_witness :
  field 0 (rmc_fields "000000" "A" "010100") = ("000000" ++ EmptyString)%string
  /\ fraction_ok bare EmptyString 0
  /\ msg_status (rmc_fields "000000" "A" "010100") = "A"%string
  /\ msg_datestamp (rmc_fields "000000" "A" "010100") = PyObj (mkDate 2000 1 1)
  /\ timezone bare (selected_time_zone (running "UTC" [])) = Some utc
  /\ astimezone (combine (mkDate 2000 1 1) (mkTime 0 0 0 0)) utc
     = Some (mkDatetime 2000 1 1 0 0 0 0)
  /\ ready GPS_CLOCK (running "UTC" [])
  /\ snd (update_time bare GPS_CLOCK
            (set_ser (RMC (rmc_fields "000000" "A" "010100") :: []) (running "UTC" [])))
     = Shown (mkDatetime 2000 1 1 0 0 0 0)
  /\ time_label (fst (update_time bare GPS_CLOCK
                        (set_ser (RMC (rmc_fields "000000" "A" "010100") :: [])
                                 (running "UTC" []))))
     = ("2000-01-01" ++ newline ++ "00:00:00")%string.
Proof.
  split; [reflexivity|]. split; [left; split; reflexivity|].
  split; [reflexivity|]. split; [reflexivity|].
  split; [reflexivity|]. split; [reflexivity|]. split; [exact I|].
  destruct (C10_midnight_is_shown bare GPS_CLOCK (running "UTC" [])
              (rmc_fields "000000" "A" "010100") [] EmptyString 0 (mkDate 2000 1 1) utc
              (mkDatetime 2000 1 1 0 0 0 0))
    as (_ & _ & H3 & H4); try reflexivity; try exact I.
  - left; split; reflexivity.
  - split; [exact H3 | exact H4].
Defined.

(** ** What the converters return *)

Lemma is_digit_val (c : ascii) : is_digit c = true -> 0 <= digit_val c <= 9.
Proof.
  unfold is_digit, digit_val. intro H. apply andb_prop in H. destruct H as [H1 H2].
  apply Z.leb_le in H1, H2. lia.
Qed.

Lemma two_digits_value (cs r : list ascii) (v : Z) :
  two is_digit is_digit cs = Some (v, r) -> 0 <= v <= 99.
Proof.
  unfold two. destruct cs as [|c1 [|c2 cs]]; try discriminate.
  destruct (is_digit c1) eqn:H1; simpl; [|discriminate].
  destruct (is_digit c2) eqn:H2; simpl; [|discriminate].
  intro H. inversion H; subst.
  pose proof (is_digit_val c1 H1). pose proof (is_digit_val c2 H2). lia.
Qed.

Lemma hd_error_In {A : Type} (l : list A) (x : A) : hd_error l = Some x -> In x l.
Proof. destruct l; simpl; [discriminate|]. intro H. inversion H. now left. Qed.

Lemma match_dmy_year (cs r : list ascii) (d m yy : Z) :
  match_dmy cs = Some (d, m, yy, r) -> 0 <= yy <= 99.
Proof.
  unfold match_dmy. intro H. apply hd_error_In in H.
  apply in_flat_map in H. destruct H as (dr & _ & H).
  apply in_flat_map in H. destruct H as (mr & _ & H).
  apply in_map_iff in H. destruct H as (yr & Heq & H).
  unfold matches, y_alternatives in H. simpl in H. rewrite app_nil_r in H.
  destruct (two is_digit is_digit (snd mr)) as [[v r']|] eqn:E; simpl in H; [|contradiction].
  destruct H as [<-|[]]. inversion Heq; subst. simpl.
  exact (two_digits_value _ _ _ E).
Qed.

(** A date that [datestamp] returns is a date of the calendar, of the years
    1969-2068. *)
Lemma datestamp_valid (s : string) (d : date) :
  datestamp s = Some d ->
  check_date_fields (d_year d) (d_month d) (d_day d) = true
  /\ 1969 <= d_year d <= 2068.
Proof.
  unfold datestamp. destruct (match_dmy (chars s)) as [[[[dd m] yy] r]|] eqn:E; [|discriminate].
  destruct r; [|discriminate].
  destruct (check_date_fields (century_year yy) m dd) eqn:Hc; [|discriminate].
  intro H. inversion H; subst. simpl. split; [exact Hc|].
  exact (proj1 (century_year_window yy (match_dmy_year _ _ _ _ _ E))).
Qed.

(** A time that [timestamp] returns is a time of day. *)
Lemma timestamp_valid (L : Lib) (s : string) (t : time) :
  timestamp L s = Some t ->
  check_time_fields (t_hour t) (t_minute t) (t_second t) (t_microsecond t) = true.
Proof.
  unfold timestamp.
  destruct (if String.eqb (string_from 6 s) EmptyString then Some 0
            else micros L (string_from 6 s)) as [us|]; [|discriminate].
  destruct (py_int (substring 0 2 s)) as [h|]; [|discriminate].
  destruct (py_int (substring 2 2 s)) as [mi|]; [|discriminate].
  destruct (py_int (substring 4 2 s)) as [sec|]; [|discriminate].
  destruct (check_time_fields h mi sec us) eqn:Hc; [|discriminate].
  intro H. inversion H; subst. exact Hc.
Qed.

Lemma getattr_obj {A : Type} (conv : string -> option A) (v : string) (x : A) :
  getattr conv v = PyObj x -> conv v = Some x.
Proof.
  unfold getattr. destruct (String.eqb v EmptyString); [discriminate|].
  destruct (conv v); [|discriminate]. intro H. now inversion H.
Qed.

(** ** Adding an offset *)

Lemma count_from_In (n : nat) (lo x : Z) :
  lo <= x < lo + Z.of_nat n -> In x (count_from lo n).
Proof.
  revert lo. induction n as [|k IH]; intros lo H.
  - lia.
  - simpl. destruct (Z.eq_dec lo x) as [E|E]; [now left|].
    right. apply IH. lia.
Qed.

Lemma ordinal_inverse_all :
  forallb ordinal_inverse_ok (count_from (ORD_1969 - 1) (Z.to_nat 36527)) = true.
Proof. vm_compute. reflexivity. Qed.

Lemma ordinal_bounds_all :
  all3 ordinal_bounds_ok (upto 1969 100) (upto 1 12) (upto 1 31) = true.
Proof. vm_compute. reflexivity. Qed.

Lemma ordinal_bounds (y m d : Z) :
  1969 <= y <= 2068 -> check_date_fields y m d = true ->
  ORD_1969 <= ymd2ord y m d <= ORD_2068.
Proof.
  intros Hy Hc. destruct (check_date_fields_bounds _ _ _ Hc) as (_ & Hm & Hd).
  assert (Hok : ordinal_bounds_ok y m d = true).
  { apply (all3_true ordinal_bounds_ok _ _ _ y m d ordinal_bounds_all);
      apply upto_In; simpl; lia. }
  unfold ordinal_bounds_ok in Hok. rewrite Hc in Hok. simpl in Hok.
  apply andb_prop in Hok. destruct Hok as [H1 H2].
  apply Z.leb_le in H1, H2. lia.
Qed.

Lemma ordinal_inverse (n : Z) :
  ORD_1969 - 1 <= n <= ORD_2068 + 1 ->
  exists y m d, ord2ymd n = (y, m, d)
                /\ check_date_fields y m d = true /\ ymd2ord y m d = n.
Proof.
  intro H. pose proof ordinal_inverse_all as A. rewrite forallb_forall in A.
  assert (Hn : ordinal_inverse_ok n = true).
  { apply A, count_from_In. rewrite Z2Nat.id by lia.
    change ORD_1969 with 718798 in *. change ORD_2068 with 755322 in H. lia. }
  unfold ordinal_inverse_ok in Hn. destruct (ord2ymd n) as [[y m] d].
  apply andb_prop in Hn. destruct Hn as [Hc He]. apply Z.eqb_eq in He.
  exists y, m, d. repeat split; assumption.
Qed.

Lemma check_time_fields_bounds (h mi s us : Z) :
  check_time_fields h mi s us = true ->
  0 <= h <= 23 /\ 0 <= mi <= 59 /\ 0 <= s <= 59 /\ 0 <= us <= 999999.
Proof.
  unfold check_time_fields. intro H.
  repeat (apply andb_prop in H; destruct H as [H ?]).
  repeat match goal with
         | X : (_ <=? _) = true |- _ => apply Z.leb_le in X
         end.
  lia.
Qed.

(** [datetime.__add__] on a date and time of the years 1969-2068 and an
    offset of less than a day: the sum is a date and time of the calendar,
    [off] seconds later. *)
Lemma add_seconds_exact (dt : datetime) (off : Z) :
  valid_datetime dt = true ->
  1969 <= year dt <= 2068 ->
  - 86400 < off < 86400 ->
  exists loc,
    add_seconds dt off = Some loc
    /\ valid_datetime loc = true
    /\ to_seconds loc = to_seconds dt + off
    /\ microsecond loc = microsecond dt.
Proof.
  unfold valid_datetime. intros Hv Hy Hoff.
  apply andb_prop in Hv. destruct Hv as [Hd Ht].
  destruct (check_time_fields_bounds _ _ _ _ Ht) as (Hh & Hmi & Hs & Hus).
  pose proof (ordinal_bounds _ _ _ Hy Hd) as Hn.
  unfold add_seconds, to_seconds.
  set (n := ymd2ord (year dt) (month dt) (day dt)) in *.
  set (total := n * 86400 + hour dt * 3600 + minute dt * 60 + second dt + off).
  assert (Hdiv : total = 86400 * (total / 86400) + total mod 86400)
    by (apply Z.div_mod; lia).
  assert (Hmod : 0 <= total mod 86400 < 86400) by (apply Z.mod_pos_bound; lia).
  set (days := total / 86400) in *. set (secs := total mod 86400) in *.
  assert (Hdays : n - 1 <= days <= n + 1) by (unfold total in Hdiv; lia).
  destruct (ordinal_inverse days) as (y & m & d & Hord & Hc & Hback); [lia|].
  change ORD_1969 with 718798 in Hn. change ORD_2068 with 755322 in Hn.
  assert (Hlo : (0 <? days) = true) by (apply Z.ltb_lt; lia).
  assert (Hhi : (days <=? MAXORDINAL) = true)
    by (apply Z.leb_le; change MAXORDINAL with 3652059; lia).
  rewrite Hlo, Hhi, Hord. simpl.
  assert (H1 : secs = 3600 * (secs / 3600) + secs mod 3600) by (apply Z.div_mod; lia).
  assert (H2 : 0 <= secs mod 3600 < 3600) by (apply Z.mod_pos_bound; lia).
  set (h := secs / 3600) in *. set (rem := secs mod 3600) in *.
  assert (H3 : rem = 60 * (rem / 60) + rem mod 60) by (apply Z.div_mod; lia).
  assert (H4 : 0 <= rem mod 60 < 60) by (apply Z.mod_pos_bound; lia).
  eexists. split; [reflexivity|]. simpl. rewrite Hc, Hback. simpl.
  split; [|split; [unfold total in Hdiv; lia | reflexivity]].
  apply check_time_fields_true; lia.
Qed.

(** ** What a tick leaves alone *)

(** The loop writes [ser] and [stdout], and the display when it shows a
    time; nothing else. *)
Lemma loop_frame (L : Lib) (p : program) (buf : list sentence) (a : app) :
  selected_time_zone (fst (while_in_waiting L p buf a)) = selected_time_zone a
  /\ clock_mode (fst (while_in_waiting L p buf a)) = clock_mode a
  /\ timers (fst (while_in_waiting L p buf a)) = timers a
  /\ now (fst (while_in_waiting L p buf a)) = now a
  /\ ticks (fst (while_in_waiting L p buf a)) = ticks a
  /\ match snd (while_in_waiting L p buf a) with
     | Shown _ => True
     | _ => time_label (fst (while_in_waiting L p buf a)) = time_label a
            /\ canvas (fst (while_in_waiting L p buf a)) = canvas a
     end.
Proof.
  revert a. induction buf as [|s buf IH]; intro a.
  - simpl. repeat split.
  - destruct s as [line| |data|exception]; simpl.
    + exact (IH (print (parse_error line) a)).
    + exact (IH a).
    + destruct (truthy (msg_timestamp L data) && truthy (msg_datestamp data)); [|exact (IH a)].
      destruct (py_combine (msg_datestamp data) (msg_timestamp L data)) as [dt|e];
        [|simpl; repeat split].
      destruct (timezone L (selected_time_zone a)) as [tz|]; [|simpl; repeat split].
      destruct (astimezone dt tz) as [loc|]; [|simpl; repeat split].
      destruct (show p loc a) as [a1|e] eqn:Hshow; [|simpl; repeat split].
      destruct (show_frame p _ _ _ Hshow) as (_ & _ & Ht & Hn & Hk & Hz & Hm).
      simpl. repeat split; assumption.
    + repeat split.
Qed.

(** A tick never writes the selected zone or the clock mode, records its
    own instant, and replaces what the display shows only when it ends with a
    result: after a tick without one, be it for want of a sentence or for an
    exception, the label and the canvas hold what they held. *)
Theorem tick_holds_display_without_result (L : Lib) (p : program) (a : app) :
  selected_time_zone (fst (update_time L p a)) = selected_time_zone a
  /\ clock_mode (fst (update_time L p a)) = clock_mode a
  /\ ticks (fst (update_time L p a)) = ticks a ++ [now a]
  /\ match snd (update_time L p a) with
     | Shown _ => True
     | _ => time_label (fst (update_time L p a)) = time_label a
            /\ canvas (fst (update_time L p a)) = canvas a
     end.
Proof.
  unfold update_time.
  destruct (loop_frame L p (ser (enter a)) (enter a)) as (Hz & Hm & _ & _ & Hk & Hd).
  destruct (while_in_waiting L p (ser (enter a)) (enter a)) as [a1 r].
  simpl in *. destruct r as [dt| |e]; simpl; repeat split; try assumption;
    destruct Hd; assumption.
Qed.

(** The next tick is armed, one second after the current instant, exactly
    when no exception leaves the loop: with [Shown] and with [Nothing] one
    timer is added, with [Raised] none. No tick removes a timer. *)
Theorem tick_rearms_unless_raised (L : Lib) (p : program) (a : app) :
  timers (fst (update_time L p a))
  = match snd (update_time L p a) with
    | Raised _ => timers a
    | _ => timers a ++ [now a + 1000]
    end.
Proof.
  pose proof (update_time_rearms L p a) as H.
  destruct (snd (update_time L p a)); exact H.
Qed.

(** The loop at the first sentence that passes the test: it reads that
    sentence and stops there, whatever comes of it, and prints nothing. *)
Lemma loop_stops_at_hit (L : Lib) (p : program) (data : list string)
      (post : list sentence) (a : app) :
  time_bearing L (RMC data) = true ->
  ser (fst (while_in_waiting L p (RMC data :: post) a)) = post
  /\ stdout (fst (while_in_waiting L p (RMC data :: post) a)) = stdout a
  /\ snd (while_in_waiting L p (RMC data :: post) a) <> Nothing.
Proof.
  intro Hd. simpl in Hd. simpl. rewrite Hd.
  destruct (py_combine (msg_datestamp data) (msg_timestamp L data)) as [dt|e];
    [|simpl; repeat split; discriminate].
  destruct (timezone L (selected_time_zone a)) as [tz|];
    [|simpl; repeat split; discriminate].
  destruct (astimezone dt tz) as [loc|]; [|simpl; repeat split; discriminate].
  destruct (show p loc a) as [a1|e] eqn:Hshow; [|simpl; repeat split; discriminate].
  destruct (show_frame p _ _ _ Hshow) as (_ & Hout & _).
  simpl. repeat split; [exact Hout | discriminate].
Qed.

Lemma diagnostics_app (l1 l2 : list sentence) :
  diagnostics (l1 ++ l2) = diagnostics l1 ++ diagnostics l2.
Proof.
  induction l1 as [|s l1 IH]; simpl; [reflexivity|].
  destruct s; simpl; now rewrite IH.
Qed.

(** A tick reads the buffer from the front and loses nothing: what it read
    and what it left make up the buffer it found, in the same order; every
    record it read that failed to parse is reported once, in arrival order,
    and nothing else is printed. Without a result and without an exception
    the buffer is empty afterwards; otherwise the last record read is the
    first at which the loop stops: the first that passes the test, or the
    first at which an exception is raised that the loop does not handle, and
    every record before it was read and passed over. *)
Theorem tick_reads_a_prefix (L : Lib) (p : program) (a : app) :
  exists consumed,
    ser a = consumed ++ ser (fst (update_time L p a))
    /\ stdout (fst (update_time L p a)) = stdout a ++ diagnostics consumed
    /\ match snd (update_time L p a) with
       | Nothing => ser (fst (update_time L p a)) = []
                    /\ none_time_bearing L consumed = true
       | _ => exists pre s,
                consumed = pre ++ [s]
                /\ none_time_bearing L pre = true
                /\ (time_bearing L s = true \/ exists exception, s = Fault exception)
       end.
Proof.
  unfold update_time. change (ser (enter a)) with (ser a).
  destruct (first_time_bearing L (ser a))
    as [Hn | [(pre & data & post & Hs & Hpre & Hd) | (pre & exception & post & Hs & Hpre)]].
  - rewrite (loop_nothing L p _ _ Hn). simpl. exists (ser a).
    rewrite app_nil_r, stdout_print_all. repeat split. exact Hn.
  - rewrite Hs, (loop_skip L p _ _ _ Hpre).
    pose proof (loop_stops_at_hit L p data post (print_all (diagnostics pre) (enter a)) Hd)
      as H.
    rewrite stdout_print_all in H.
    destruct (while_in_waiting L p (RMC data :: post) (print_all (diagnostics pre) (enter a)))
      as [a1 r].
    simpl in H. destruct H as (Hser & Hout & Hr). exists (pre ++ [RMC data]).
    assert (Hdiag : diagnostics (pre ++ [RMC data]) = diagnostics pre).
    { rewrite diagnostics_app. simpl. apply app_nil_r. }
    destruct r as [dt| |e]; simpl; rewrite ?Hser, ?Hout, ?Hdiag, <- ?app_assoc; simpl;
      try congruence;
      (split; [reflexivity|]; split; [reflexivity|]; exists pre, (RMC data);
       split; [reflexivity|]; split; [exact Hpre|]; left; exact Hd).
  - rewrite Hs, (loop_skip L p _ _ _ Hpre), loop_fault. simpl.
    exists (pre ++ [Fault exception]).
    rewrite <- app_assoc, diagnostics_app, (stdout_print_all (diagnostics pre) (enter a)).
    simpl. rewrite app_nil_r.
    split; [reflexivity|]. split; [reflexivity|].
    exists pre, (Fault exception). split; [reflexivity|]. split; [exact Hpre|].
    right. now exists exception.
Qed.

(** ** The zone conversion of a tick *)

Lemma combine_valid (L : Lib) (data : list string) (t : time) (d : date) :
  msg_timestamp L data = PyObj t ->
  msg_datestamp data = PyObj d ->
  valid_datetime (combine d t) = true /\ 1969 <= year (combine d t) <= 2068.
Proof.
  intros Ht Hd. apply getattr_obj in Ht, Hd.
  destruct (datestamp_valid _ _ Hd) as [Hc Hy].
  pose proof (timestamp_valid _ _ _ Ht) as Hv.
  unfold valid_datetime, combine. simpl. now rewrite Hc, Hv.
Qed.

Lemma update_hit_offset (L : Lib) (p : program) (a : app) (pre post : list sentence)
      (data : list string) (t : time) (d : date) (tz : datetime -> Z) :
  ser a = pre ++ RMC data :: post ->
  none_time_bearing L pre = true ->
  msg_timestamp L data = PyObj t ->
  msg_datestamp data = PyObj d ->
  timezone L (selected_time_zone a) = Some tz ->
  - 86400 < tz (combine d t) < 86400 ->
  ready p a ->
  exists loc,
    snd (update_time L p a) = Shown loc
    /\ valid_datetime loc = true
    /\ to_seconds loc = to_seconds (combine d t) + tz (combine d t).
Proof.
  intros Hs Hpre Ht Hd Htz Hoff Hready.
  destruct (combine_valid L data t d Ht Hd) as [Hv Hy].
  destruct (add_seconds_exact (combine d t) (tz (combine d t)) Hv Hy Hoff)
    as (loc & Hloc & Hvl & Hsec & _).
  destruct (update_hit L p a pre post data t d tz loc Hs Hpre Ht Hd Htz Hloc Hready)
    as (a1 & _ & Hup).
  exists loc. rewrite Hup. repeat split; assumption.
Qed.

(** With a known zone whose offset from UTC is less than a day, the tick
    that reaches a sentence whose time and date convert (the records before
    it are read and passed over) shows a date and time of the calendar that
    lies exactly the zone's offset after the UTC date and time of the
    sentence; the conversion never overflows, also across midnight, the end
    of a month or of a year. *)
Theorem tick_shows_utc_plus_offset
        (L : Lib) (p : program) (a : app) (pre post : list sentence)
        (data : list string) (t : time) (d : date) (tz : datetime -> Z) :
  ser a = pre ++ RMC data :: post ->
  none_time_bearing L pre = true ->
  msg_timestamp L data = PyObj t ->
  msg_datestamp data = PyObj d ->
  timezone L (selected_time_zone a) = Some tz ->
  - 86400 < tz (combine d t) < 86400 ->
  ready p a ->
  exists loc,
    snd (update_time L p a) = Shown loc
    /\ valid_datetime loc = true
    /\ to_seconds loc = to_seconds (combine d t) + tz (combine d t).
Proof. exact (update_hit_offset L p a pre post data t d tz). Qed.

Lemma tick_shows_utc_plus_offset_witness :
  exists loc,
    snd (update_time tokyo GPS_CLOCK
           (running "Asia/Tokyo" [Other; RMC (rmc_fields "233519" "A" "311299")]))
    = Shown loc
    /\ valid_datetime loc = true
    /\ to_seconds loc
       = to_seconds (combine (mkDate 1999 12 31) (mkTime 23 35 19 0)) + 32400.
Proof.
  apply (tick_shows_utc_plus_offset tokyo GPS_CLOCK
           (running "Asia/Tokyo" [Other; RMC (rmc_fields "233519" "A" "311299")])
           [Other] [] (rmc_fields "233519" "A" "311299")
           (mkTime 23 35 19 0) (mkDate 1999 12 31) (fun _ => 32400));
    try reflexivity; try exact I; split; reflexivity.
Defined.

Lemma convertible_hit (L : Lib) (data : list string) :
  time_bearing L (RMC data) = true ->
  convertible L (RMC data) = true ->
  exists t d, msg_timestamp L data = PyObj t /\ msg_datestamp data = PyObj d.
Proof.
  unfold convertible. intros Hd Hc. rewrite Hd in Hc. simpl in Hc.
  destruct (msg_timestamp L data) as [|t|v]; try discriminate.
  destruct (msg_datestamp data) as [|d|w]; try discriminate.
  now exists t, d.
Qed.

(** When the zone is known and less than a day from UTC, [clock_mode] is
    assigned, reading and parsing the lines of the buffer raise nothing but
    [ParseError], and every sentence of the buffer that passes the test has a
    time and a date that convert, no exception leaves the tick, and the next
    tick is armed. *)
Theorem tick_never_raises_when_convertible
        (L : Lib) (p : program) (a : app) (tz : datetime -> Z) :
  timezone L (selected_time_zone a) = Some tz ->
  (forall u, - 86400 < tz u < 86400) ->
  ready p a ->
  forallb (convertible L) (ser a) = true ->
  (forall e, snd (update_time L p a) <> Raised e)
  /\ timers (fst (update_time L p a)) = timers a ++ [now a + 1000].
Proof.
  intros Htz Hoff Hready Hall.
  assert (Hne : forall e, snd (update_time L p a) <> Raised e).
  { rewrite forallb_forall in Hall.
    destruct (first_time_bearing L (ser a))
      as [Hn | [(pre & data & post & Hs & Hpre & Hd) | (pre & exception & post & Hs & Hpre)]].
    - rewrite (update_nothing L p a Hn). discriminate.
    - assert (Hc : convertible L (RMC data) = true).
      { apply Hall. rewrite Hs. apply in_or_app. right. now left. }
      destruct (convertible_hit L data Hd Hc) as (t & d & Ht & Hds).
      destruct (update_hit_offset L p a pre post data t d tz Hs Hpre Ht Hds Htz
                  (Hoff _) Hready) as (loc & Hup & _).
      rewrite Hup. discriminate.
    - assert (Hc : convertible L (Fault exception) = true).
      { apply Hall. rewrite Hs. apply in_or_app. right. now left. }
      discriminate. }
  split; [exact Hne|].
  pose proof (update_time_rearms L p a) as H.
  destruct (snd (update_time L p a)) as [dt| |e]; try exact H.
  exfalso. exact (Hne e eq_refl).
Qed.

Lemma tick_never_raises_when_convertible_witness :
  (forall e,
      snd (update_time tokyo GPS_CLOCK2
             (running "Asia/Tokyo"
                [Unparseable "$GP"; RMC (rmc_fields "12" "A" EmptyString);
                 RMC (rmc_fields "233519.5" "V" EmptyString);
                 RMC (rmc_fields "233519" "A" "311299")]))
      <> Raised e)
  /\ timers (fst (update_time tokyo GPS_CLOCK2
                    (running "Asia/Tokyo"
                       [Unparseable "$GP"; RMC (rmc_fields "12" "A" EmptyString);
                        RMC (rmc_fields "233519.5" "V" EmptyString);
                        RMC (rmc_fields "233519" "A" "311299")])))
     = timers (running "Asia/Tokyo" []) ++ [now (running "Asia/Tokyo" []) + 1000].
Proof.
  apply (tick_never_raises_when_convertible tokyo GPS_CLOCK2
           (running "Asia/Tokyo"
              [Unparseable "$GP"; RMC (rmc_fields "12" "A" EmptyString);
               RMC (rmc_fields "233519.5" "V" EmptyString);
               RMC (rmc_fields "233519" "A" "311299")])
           (fun _ => 32400)).
  - reflexivity.
  - intros _. lia.
  - discriminate.
  - reflexivity.
Defined.

(** ** The cadence of the ticks *)

Lemma every_second_S (k : nat) :
  every_second (S k) = every_second k ++ [1000 * Z.of_nat k].
Proof. unfold every_second. rewrite seq_S, map_app. reflexivity. Qed.

Lemma update_time_now_ticks (L : Lib) (p : program) (a : app) :
  now (fst (update_time L p a)) = now a
  /\ ticks (fst (update_time L p a)) = ticks a ++ [now a].
Proof.
  unfold update_time.
  destruct (loop_frame L p (ser (enter a)) (enter a)) as (_ & _ & _ & Hn & Hk & _).
  destruct (while_in_waiting L p (ser (enter a)) (enter a)) as [a1 r].
  simpl in *. destruct r; simpl; split; assumption.
Qed.

(** A tick entered on the second leaves the state on the second. *)
Lemma update_time_on_the_second (L : Lib) (p : program) (a : app) (k : nat) :
  ticks a = every_second k ->
  timers a = [] ->
  now a = 1000 * Z.of_nat k ->
  on_the_second (fst (update_time L p a)).
Proof.
  intros Hk Ht Hn. exists (S k).
  destruct (update_time_now_ticks L p a) as [Hnow Hticks].
  pose proof (update_time_rearms L p a) as Hr.
  rewrite Hticks, Hk, Hn, every_second_S, Hnow. split; [reflexivity|].
  rewrite Ht, Hn in Hr. rewrite Nat2Z.inj_succ.
  destruct (snd (update_time L p a)); rewrite Hr; cbn [List.app].
  - right. split; [f_equal; lia | lia].
  - right. split; [f_equal; lia | lia].
  - now left.
Qed.

Lemma dispatch_on_the_second (L : Lib) (p : program) (a : app) :
  on_the_second a -> on_the_second (dispatch L p (set_now (now a + 1) a)).
Proof.
  intros (k & Hk & Ht). unfold dispatch.
  change (timers (set_now (now a + 1) a)) with (timers a).
  change (now (set_now (now a + 1) a)) with (now a + 1).
  destruct Ht as [Ht | [Ht Hn]]; rewrite Ht.
  - cbn [filter fold_left]. exists k. split; [exact Hk | now left].
  - cbn [filter]. destruct (1000 * Z.of_nat k <=? now a + 1) eqn:E; cbn [negb fold_left].
    + apply Z.leb_le in E.
      apply (update_time_on_the_second L p _ k); [exact Hk | reflexivity|].
      change (now a + 1 = 1000 * Z.of_nat k). lia.
    + apply Z.leb_gt in E. exists k. split; [exact Hk|]. right.
      split; [reflexivity|]. change (now a + 1 < 1000 * Z.of_nat k). lia.
Qed.

Lemma elapse_on_the_second (L : Lib) (p : program) (ms : nat) (a : app) :
  on_the_second a -> on_the_second (elapse L p ms a).
Proof.
  revert a. induction ms as [|n IH]; intros a H; simpl; [exact H|].
  apply IH, dispatch_on_the_second, H.
Qed.

Lemma run_on_the_second (L : Lib) (p : program) (es : list event) (a : app) :
  timer_driven p es = true -> on_the_second a -> on_the_second (run L p es a).
Proof.
  unfold run. revert a. induction es as [|e es IH]; intros a Hq H; simpl; [exact H|].
  assert (Hq' : timer_driven p es = true).
  { destruct p; [reflexivity|]. simpl in Hq. apply andb_prop in Hq. exact (proj2 Hq). }
  apply IH; [exact Hq'|].
  destruct e as [ms|ls|m|z]; simpl.
  - apply elapse_on_the_second, H.
  - exact H.
  - destruct p; [exact H|]. simpl in Hq. discriminate.
  - exact H.
Qed.

Lemma init_on_the_second (L : Lib) (p : program) (zone : string) (buf : list sentence)
      (a0 : app) :
  init L p zone buf = inl a0 -> on_the_second a0.
Proof.
  unfold init.
  set (a := mkApp buf zone None EmptyString None [] [] 0 []).
  pose proof (update_time_on_the_second L p a 0 eq_refl eq_refl eq_refl) as H.
  destruct (update_time L p a) as [a1 r]. simpl in H.
  destruct r as [dt| |e]; intro E; inversion E; subst; destruct p; exact H.
Qed.

Lemma spaced_seconds (start k : nat) :
  spaced 1000 (map (fun i => 1000 * Z.of_nat i) (seq start k)).
Proof.
  revert start. induction k as [|k IH]; intro start; [exact I|].
  cbn [seq map spaced]. specialize (IH (S start)).
  destruct k as [|k]; [exact I|].
  cbn [seq map] in *. split; [lia | exact IH].
Qed.

(** From start-up on, as long as nothing but the timer calls [update_time]
    (always in GPS-CLOCK.py; in GPS-CLOCK2.py until a clock mode is chosen),
    at most one timer is pending and two ticks are never less than one
    second apart, whatever arrives on the serial line, whatever zone is
    chosen and however long the event loop runs. *)
Theorem ticks_at_least_a_second_apart
        (L : Lib) (p : program) (zone : string) (buf : list sentence)
        (es : list event) (a0 : app) :
  init L p zone buf = inl a0 ->
  timer_driven p es = true ->
  (List.length (timers (run L p es a0)) <= 1)%nat
  /\ spaced 1000 (ticks (run L p es a0)).
Proof.
  intros Hinit Hq.
  destruct (run_on_the_second L p es a0 Hq (init_on_the_second L p zone buf a0 Hinit))
    as (k & Hk & Ht).
  split.
  - destruct Ht as [-> | [-> _]]; simpl; lia.
  - rewrite Hk. apply spaced_seconds.
Qed.

Lemma ticks_at_least_a_second_apart_witness :
  le (List.length
        (timers (run tokyo GPS_CLOCK2
                   [Elapse 1500; Receive [RMC (rmc_fields "123519" "A" "230394")];
                    SetTimeZone "Asia/Tokyo"; Elapse 1000; Receive [Fault "IndexError"];
                    Elapse 2000]
                   (mkApp [] "UTC" (Some "digital"%string) EmptyString None
                          [] [1000] 0 [0]))))
     1%nat
  /\ spaced 1000
       (ticks (run tokyo GPS_CLOCK2
                 [Elapse 1500; Receive [RMC (rmc_fields "123519" "A" "230394")];
                  SetTimeZone "Asia/Tokyo"; Elapse 1000; Receive [Fault "IndexError"];
                  Elapse 2000]
                 (mkApp [] "UTC" (Some "digital"%string) EmptyString None
                        [] [1000] 0 [0]))).
Proof.
  apply (ticks_at_least_a_second_apart tokyo GPS_CLOCK2 "UTC" []); reflexivity.
Defined.

Lemma mode_switches_accumulate_timers_witness :
  List.length
    (timers (run bare GPS_CLOCK2
               (map SetClockMode ["analog"; "digital"; "analog"]%string)
               (mkApp [] "UTC" (Some "digital"%string) EmptyString None [] [1000] 0 [0])))
  = Nat.add (List.length [1000]) (List.length ["analog"; "digital"; "analog"]%string).
Proof.
  apply (mode_switches_accumulate_timers bare ["analog"; "digital"; "analog"]%string
           (mkApp [] "UTC" (Some "digital"%string) EmptyString None [] [1000] 0 [0])).
  reflexivity.
Defined.

(** ** Start-up *)

(** [__init__] calls [update_time] before GPS-CLOCK2.py assigns
    [clock_mode]: when the first tick reaches a sentence whose time and date
    convert (the records waiting before it are read and passed over, the zone
    is known and less than a day from UTC), the constructor of GPS-CLOCK2.py
    ends in [AttributeError], while GPS-CLOCK.py starts, shows the time of
    that sentence in the zone and leaves the records after it in the
    buffer. *)
Theorem startup_with_sentence_waiting
        (L : Lib) (zone : string) (pre post : list sentence) (data : list string)
        (t : time) (d : date) (tz : datetime -> Z) :
  none_time_bearing L pre = true ->
  msg_timestamp L data = PyObj t ->
  msg_datestamp data = PyObj d ->
  timezone L zone = Some tz ->
  - 86400 < tz (combine d t) < 86400 ->
  init L GPS_CLOCK2 zone (pre ++ RMC data :: post) = inr AttributeError
  /\ exists a0 loc,
       init L GPS_CLOCK zone (pre ++ RMC data :: post) = inl a0
       /\ astimezone (combine d t) tz = Some loc
       /\ time_label a0 = strftime loc
       /\ ser a0 = post
       /\ timers a0 = [1000].
Proof.
  intros Hpre Ht Hd Htz Hoff.
  destruct (combine_valid L data t d Ht Hd) as [Hv Hy].
  destruct (add_seconds_exact (combine d t) (tz (combine d t)) Hv Hy Hoff)
    as (loc & Hloc & _).
  set (a := mkApp (pre ++ RMC data :: post) zone None EmptyString None [] [] 0 []).
  destruct (print_all_frame (diagnostics pre) (enter a)) as (_ & Hz & Hm & _ & _ & Htm & Hn & _).
  assert (Hloop : forall p,
             while_in_waiting L p (pre ++ RMC data :: post) (enter a)
             = match show p loc (print_all (diagnostics pre) (enter a)) with
               | inl a' => (set_ser post a', Shown loc)
               | inr e => (set_ser post (print_all (diagnostics pre) (enter a)), Raised e)
               end).
  { intro p. rewrite (loop_skip L p _ _ _ Hpre), (loop_hit L p _ _ _ _ _ Ht Hd), Hz.
    change (selected_time_zone (enter a)) with zone. rewrite Htz.
    change (astimezone (combine d t) tz) with (add_seconds (combine d t) (tz (combine d t))).
    now rewrite Hloc. }
  split.
  - unfold init, update_time. fold a. change (ser (enter a)) with (pre ++ RMC data :: post).
    rewrite Hloop. unfold show. rewrite Hm. reflexivity.
  - exists (after 1000 (set_ser post (set_time_label (strftime loc)
                                         (print_all (diagnostics pre) (enter a))))), loc.
    split; [|split; [exact Hloc|]].
    + unfold init, update_time. fold a. change (ser (enter a)) with (pre ++ RMC data :: post).
      rewrite Hloop. reflexivity.
    + simpl. rewrite Htm, Hn. repeat split.
Qed.

Lemma startup_with_sentence_waiting_witness :
  init tokyo GPS_CLOCK2 "Asia/Tokyo"
       ([Other] ++ RMC (rmc_fields "123519" "A" "230394") :: [Other])
  = inr AttributeError
  /\ exists a0 loc,
       init tokyo GPS_CLOCK "Asia/Tokyo"
            ([Other] ++ RMC (rmc_fields "123519" "A" "230394") :: [Other]) = inl a0
       /\ astimezone (combine (mkDate 1994 3 23) (mkTime 12 35 19 0)) (fun _ => 32400)
          = Some loc
       /\ time_label a0 = strftime loc
       /\ ser a0 = [Other]
       /\ timers a0 = [1000].
Proof.
  apply (startup_with_sentence_waiting tokyo "Asia/Tokyo" [Other] [Other]
           (rmc_fields "123519" "A" "230394") (mkTime 12 35 19 0) (mkDate 1994 3 23)
           (fun _ => 32400));
    try reflexivity.
  split; reflexivity.
Defined.

(** When no sentence that passes the test is waiting at start-up, and no
    line on which reading or parsing raises an exception other than
    [ParseError], both programs start whatever the zone identifier is: the
    zone is not looked up before a sentence is shown, so an identifier the
    database does not know goes unnoticed. The buffer is drained, one timer is
    pending, due after one second, and GPS-CLOCK2.py is in digital mode. *)
Theorem startup_does_not_check_the_zone
        (L : Lib) (p : program) (zone : string) (buf : list sentence) :
  forallb lacks_time_or_date buf = true ->
  exists a0,
    init L p zone buf = inl a0
    /\ selected_time_zone a0 = zone
    /\ ser a0 = []
    /\ timers a0 = [1000]
    /\ time_label a0 = EmptyString
    /\ stdout a0 = diagnostics buf
    /\ clock_mode a0 = match p with
                       | GPS_CLOCK => None
                       | GPS_CLOCK2 => Some "digital"%string
                       end.
Proof.
  intro H. rewrite (none_time_bearing_lacks L) in H.
  set (a := mkApp buf zone None EmptyString None [] [] 0 []).
  pose proof (update_nothing L p a H) as Hup.
  destruct (print_all_frame (diagnostics buf) (enter a))
    as (_ & Hz & Hm & Hl & _ & Htm & Hn & _).
  pose proof (stdout_print_all (diagnostics buf) (enter a)) as Hout.
  unfold init. fold a. rewrite Hup.
  destruct p; eexists; (split; [reflexivity|]); simpl;
    rewrite ?Hz, ?Hl, ?Htm, ?Hn, ?Hout, ?Hm; repeat split.
Qed.

Lemma startup_does_not_check_the_zone_witness :
  exists a0,
    init bare GPS_CLOCK2 "Mars/Olympus" [Other; Unparseable "$GP"] = inl a0
    /\ selected_time_zone a0 = "Mars/Olympus"%string
    /\ ser a0 = []
    /\ timers a0 = [1000]
    /\ time_label a0 = EmptyString
    /\ stdout a0 = diagnostics [Other; Unparseable "$GP"]
    /\ clock_mode a0 = Some "digital"%string.
Proof.
  apply (startup_does_not_check_the_zone bare GPS_CLOCK2 "Mars/Olympus"
           [Other; Unparseable "$GP"]).
  reflexivity.
Defined.

(** ** Numerals *)

Lemma digit_char_spec (d : Z) :
  0 <= d <= 9 -> is_digit (digit_char d) = true /\ digit_val (digit_char d) = d.
Proof.
  intro H.
  assert (E : d = 0 \/ d = 1 \/ d = 2 \/ d = 3 \/ d = 4 \/ d = 5 \/ d = 6 \/ d = 7
              \/ d = 8 \/ d = 9) by lia.
  repeat (destruct E as [-> | E]; [split; reflexivity|]). subst. split; reflexivity.
Qed.

Lemma digits_of_acc (fuel : nat) (n : Z) (acc : list ascii) :
  digits_of fuel n acc = digits_of fuel n [] ++ acc.
Proof.
  revert n acc. induction fuel as [|f IH]; intros n acc; simpl; [reflexivity|].
  destruct (n <? 10); [reflexivity|].
  rewrite (IH (n / 10) (digit_char (n mod 10) :: acc)).
  rewrite (IH (n / 10) [digit_char (n mod 10)]).
  now rewrite <- app_assoc.
Qed.

(** The digits [digits_of] writes are digits, at least one, and their value
    is the number. *)
Lemma digits_of_spec (fuel : nat) (n : Z) :
  0 <= n < Z.of_nat fuel ->
  Forall (fun c => is_digit c = true) (digits_of fuel n [])
  /\ digits_of fuel n [] <> []
  /\ fold_left numeral_step (digits_of fuel n []) 0 = n.
Proof.
  revert n. induction fuel as [|f IH]; intros n H; [lia|].
  simpl. assert (Hm : 0 <= n mod 10 <= 9) by (pose proof (Z.mod_pos_bound n 10); lia).
  destruct (digit_char_spec _ Hm) as [Hd Hv].
  destruct (n <? 10) eqn:E.
  - apply Z.ltb_lt in E. repeat split.
    + constructor; [exact Hd | constructor].
    + discriminate.
    + simpl. unfold numeral_step. rewrite Hv. rewrite Z.mod_small by lia. lia.
  - apply Z.ltb_ge in E.
    assert (Hq : 0 <= n / 10 < Z.of_nat f).
    { pose proof (Z.div_mod n 10). lia. }
    destruct (IH _ Hq) as (Hall & Hne & Hval).
    rewrite digits_of_acc. repeat split.
    + apply Forall_app. split; [exact Hall|]. constructor; [exact Hd | constructor].
    + intro C. apply app_eq_nil in C. destruct C as [_ C]. discriminate.
    + rewrite fold_left_app, Hval. simpl. unfold numeral_step. rewrite Hv.
      pose proof (Z.div_mod n 10). lia.
Qed.

Lemma int_digits_all_digits (l : list ascii) (acc : Z) (b : bool) :
  Forall (fun c => is_digit c = true) l ->
  l <> [] ->
  int_digits acc b l = Some (fold_left numeral_step l acc).
Proof.
  revert acc b. induction l as [|c l IH]; intros acc b Hall Hne; [congruence|].
  inversion Hall as [|? ? Hc Hl]; subst. simpl. rewrite Hc.
  destruct l as [|c' l'].
  - reflexivity.
  - apply IH; [exact Hl | discriminate].
Qed.

Lemma digit_not_space (c : ascii) : is_digit c = true -> is_space c = false.
Proof.
  unfold is_digit, is_space. intro H. apply andb_prop in H. destruct H as [H1 H2].
  apply Z.leb_le in H1, H2.
  destruct (code c <=? 13) eqn:E1; [apply Z.leb_le in E1; lia|].
  destruct (code c =? 32) eqn:E2; [apply Z.eqb_eq in E2; lia|].
  now rewrite andb_false_r.
Qed.

Lemma lstrip_digits (l : list ascii) :
  Forall (fun c => is_digit c = true) l -> lstrip l = l.
Proof.
  destruct l as [|c l]; [reflexivity|]. intro H. inversion H; subst. simpl.
  now rewrite digit_not_space.
Qed.

Lemma strip_digits (l : list ascii) :
  Forall (fun c => is_digit c = true) l -> strip l = l.
Proof.
  intro H. unfold strip. rewrite (lstrip_digits l H).
  rewrite lstrip_digits by (apply Forall_rev; exact H). apply rev_involutive.
Qed.

Lemma filter_all {A : Type} (f : A -> bool) (l : list A) :
  Forall (fun x => f x = true) l -> filter f l = l.
Proof.
  induction 1 as [|x l Hx Hl IH]; simpl; [reflexivity|]. now rewrite Hx, IH.
Qed.

(** A number below [10 ^ m] is written with at most [m] digits. *)
Lemma digits_of_length (fuel : nat) (n : Z) (m : nat) :
  (1 <= m)%nat ->
  0 <= n < 10 ^ Z.of_nat m ->
  (List.length (digits_of fuel n []) <= m)%nat.
Proof.
  revert n m. induction fuel as [|f IH]; intros n m Hm H; cbn [digits_of].
  - cbn [List.length]. lia.
  - destruct (n <? 10) eqn:E; [cbn [List.length]; lia|].
    apply Z.ltb_ge in E.
    destruct m as [|m]; [lia|].
    rewrite Nat2Z.inj_succ, Z.pow_succ_r in H by lia.
    assert (Hq : 0 <= n / 10 < 10 ^ Z.of_nat m).
    { split; [apply Z.div_pos; lia|]. apply Z.div_lt_upper_bound; lia. }
    destruct m as [|m].
    + change (10 ^ Z.of_nat 0) with 1 in Hq. assert (n / 10 = 0) by lia.
      pose proof (Z.div_mod n 10). pose proof (Z.mod_pos_bound n 10). lia.
    + rewrite digits_of_acc, length_app. cbn [List.length].
      assert (H1 : (1 <= S m)%nat) by lia.
      pose proof (IH (n / 10) (S m) H1 Hq). lia.
Qed.

(** [int(str(n)) == n] for a number that is not negative and has at most
    4300 digits. *)
Lemma py_int_str_int (n : Z) : 0 <= n < 10 ^ MAX_STR_DIGITS -> py_int (str_int n) = Some n.
Proof.
  intro H. unfold str_int. destruct (n <? 0) eqn:E; [apply Z.ltb_lt in E; lia|].
  destruct (digits_of_spec (S (Z.to_nat n)) n) as (Hall & Hne & Hval); [lia|].
  assert (Hlen : (List.length (digits_of (S (Z.to_nat n)) n []) <= Z.to_nat MAX_STR_DIGITS)%nat).
  { apply digits_of_length.
    - change 1%nat with (Z.to_nat 1). apply Z2Nat.inj_le; unfold MAX_STR_DIGITS; lia.
    - rewrite Z2Nat.id by (unfold MAX_STR_DIGITS; lia). exact H. }
  unfold py_int, chars.
  rewrite list_ascii_of_string_of_list_ascii, (strip_digits _ Hall), (filter_all _ _ Hall).
  assert (Hlim : (MAX_STR_DIGITS <? Z.of_nat (List.length (digits_of (S (Z.to_nat n)) n [])))
                 = false).
  { apply Z.ltb_ge. apply Nat2Z.inj_le in Hlen.
    rewrite Z2Nat.id in Hlen by (unfold MAX_STR_DIGITS; lia). exact Hlen. }
  rewrite Hlim.
  destruct (digits_of (S (Z.to_nat n)) n []) as [|c r] eqn:D; [congruence|].
  pose proof (Forall_inv Hall) as Hc. simpl in Hc.
  assert (Hcode : 48 <= code c).
  { unfold is_digit in Hc. apply andb_prop in Hc. destruct Hc as [Hc _].
    now apply Z.leb_le in Hc. }
  destruct (code c =? 43) eqn:E1; [apply Z.eqb_eq in E1; lia|].
  destruct (code c =? 45) eqn:E2; [apply Z.eqb_eq in E2; lia|].
  rewrite (int_digits_all_digits (c :: r) 0 false Hall) by discriminate.
  now rewrite Hval.
Qed.

(** What [int] refuses and what it strips: a separator (code 28) before
    or after the digits is refused, a vertical tab or a carriage return is
    stripped. *)
Example int_refuses_separators :
  py_int (String (ascii_of_nat 28) "5") = None
  /\ py_int (String "5" (String (ascii_of_nat 31) EmptyString)) = None
  /\ py_int (String (ascii_of_nat 11) (String "5" (String (ascii_of_nat 13) EmptyString)))
     = Some 5
  /\ main_select ["/dev/ttyS0"]%string (String (ascii_of_nat 28) "1") "9600"
     = inr ValueError
  /\ main_select ["/dev/ttyS0"]%string "1" (String (ascii_of_nat 28) "9600")
     = inr ValueError.
Proof. vm_compute. repeat split. Qed.

(** [int] refuses a numeral of more than 4300 digits, whatever they are. *)
Lemma py_int_digit_limit (s : string) :
  MAX_STR_DIGITS < Z.of_nat (List.length (filter is_digit (strip (chars s)))) ->
  py_int s = None.
Proof.
  intro H. unfold py_int. apply Z.ltb_lt in H. now rewrite H.
Qed.

(** ** The choice of the port *)

Lemma nth_error_enumerate {A : Type} (l : list A) (start : Z) (i : nat) (x : A) :
  nth_error l i = Some x ->
  nth_error (enumerate start l) i = Some (start + Z.of_nat i, x).
Proof.
  revert start i. induction l as [|y l IH]; intros start i H.
  - destruct i; discriminate.
  - destruct i as [|i]; simpl in *.
    + inversion H. f_equal. f_equal. lia.
    + rewrite (IH (start + 1) i H). f_equal. f_equal. lia.
Qed.

Lemma py_index_front {A : Type} (l : list A) (i : nat) (x : A) :
  nth_error l i = Some x -> py_index l (Z.of_nat i) = Some x.
Proof.
  intro H. assert (Hi : (i < List.length l)%nat) by (apply nth_error_Some; congruence).
  unfold py_index.
  destruct (Z.of_nat i <? 0) eqn:E; [apply Z.ltb_lt in E; lia|].
  rewrite E. simpl.
  destruct (Z.of_nat (List.length l) <=? Z.of_nat i) eqn:E2; [apply Z.leb_le in E2; lia|].
  now rewrite Nat2Z.id.
Qed.

(** The number [main] prints in front of a port is the number that selects
    it: the line numbered [k + 1] names the port at position [k] of the
    list, and the answer [str(k + 1)] makes [main] open that port with the
    baud rate the second answer reads as. (The number has at most 4300
    digits, beyond which [int] refuses a numeral.) *)
Theorem listed_number_selects_port
        (ports : list string) (k : nat) (dev answer2 : string) (baudrate : Z) :
  nth_error ports k = Some dev ->
  Z.of_nat (S k) < 10 ^ MAX_STR_DIGITS ->
  py_int answer2 = Some baudrate ->
  nth_error (main_listing ports) (S k)
  = Some (str_int (Z.of_nat (S k)) ++ ": " ++ dev)%string
  /\ main_select ports (str_int (Z.of_nat (S k))) answer2 = inl (dev, baudrate).
Proof.
  intros Hk Hlim Hb. split.
  - unfold main_listing. cbn [nth_error].
    rewrite nth_error_map, (nth_error_enumerate ports 1 k dev Hk).
    cbn [option_map fst snd].
    replace (1 + Z.of_nat k) with (Z.of_nat (S k)) by lia. reflexivity.
  - unfold main_select. rewrite py_int_str_int by (split; [lia | exact Hlim]).
    replace (Z.of_nat (S k) - 1) with (Z.of_nat k) by lia.
    now rewrite (py_index_front ports k dev Hk), Hb.
Qed.

Lemma listed_number_selects_port_witness :
  nth_error (main_listing ["/dev/ttyS0"; "/dev/ttyUSB0"; "/dev/ttyACM0"]%string) 2
  = Some "2: /dev/ttyUSB0"%string
  /\ main_select ["/dev/ttyS0"; "/dev/ttyUSB0"; "/dev/ttyACM0"]%string "2" " 9600"
     = inl ("/dev/ttyUSB0"%string, 9600).
Proof.
  apply (listed_number_selects_port ["/dev/ttyS0"; "/dev/ttyUSB0"; "/dev/ttyACM0"]%string
           1 "/dev/ttyUSB0" " 9600" 9600);
    reflexivity.
Defined.

(** An answer that [int] reads as zero or as a negative number (a numeral
    of at most 4300 digits, with nothing around it but the blanks [int]
    strips) does not end [main]: the index [k - 1] counts from the end of the
    list. The answer 0 opens the last port listed, -1 the one before it, down
    to [1 - len(ports)], which opens the first. *)
Theorem nonpositive_number_selects_from_the_end
        (ports : list string) (answer1 answer2 : string) (k baudrate : Z) :
  py_int answer1 = Some k ->
  - Z.of_nat (List.length ports) < k <= 0 ->
  py_int answer2 = Some baudrate ->
  exists dev,
    nth_error ports (Z.to_nat (Z.of_nat (List.length ports) + k - 1)) = Some dev
    /\ main_select ports answer1 answer2 = inl (dev, baudrate).
Proof.
  intros Hk Hr Hb.
  set (n := Z.of_nat (List.length ports)) in *.
  destruct (nth_error ports (Z.to_nat (n + k - 1))) as [dev|] eqn:E.
  - exists dev. split; [reflexivity|].
    unfold main_select. rewrite Hk. unfold py_index. fold n.
    destruct (k - 1 <? 0) eqn:E1; [|apply Z.ltb_ge in E1; lia].
    destruct (k - 1 + n <? 0) eqn:E2; [apply Z.ltb_lt in E2; lia|].
    destruct (n <=? k - 1 + n) eqn:E3; [apply Z.leb_le in E3; lia|].
    simpl. replace (k - 1 + n) with (n + k - 1) by lia. now rewrite E, Hb.
  - exfalso. apply nth_error_None in E. unfold n in *. lia.
Qed.

Lemma nonpositive_number_selects_from_the_end_witness :
  exists dev,
    nth_error ["/dev/ttyS0"; "/dev/ttyUSB0"; "/dev/ttyACM0"]%string
              (Z.to_nat (Z.of_nat (List.length
                                     ["/dev/ttyS0"; "/dev/ttyUSB0"; "/dev/ttyACM0"]%string)
                         + 0 - 1))
    = Some dev
    /\ main_select ["/dev/ttyS0"; "/dev/ttyUSB0"; "/dev/ttyACM0"]%string "0" "4800"
       = inl (dev, 4800).
Proof.
  apply (nonpositive_number_selects_from_the_end
           ["/dev/ttyS0"; "/dev/ttyUSB0"; "/dev/ttyACM0"]%string "0" "4800" 0 4800).
  - reflexivity.
  - simpl. lia.
  - reflexivity.
Defined.

(** An answer that [int] reads as a number greater than the number of
    ports, or at most its negative, ends [main] in [IndexError], whatever the
    second answer would have been; with no port listed every such answer
    does. (An answer [int] refuses, such as a numeral of more than 4300
    digits, ends [main] in [ValueError] instead.) *)
Theorem number_out_of_range_is_IndexError
        (ports : list string) (answer1 answer2 : string) (k : Z) :
  py_int answer1 = Some k ->
  Z.of_nat (List.length ports) < k \/ k <= - Z.of_nat (List.length ports) ->
  main_select ports answer1 answer2 = inr IndexError.
Proof.
  intros Hk Hr. unfold main_select. rewrite Hk. unfold py_index.
  set (n := Z.of_nat (List.length ports)) in *.
  destruct (k - 1 <? 0) eqn:E1.
  - apply Z.ltb_lt in E1.
    destruct (k - 1 + n <? 0) eqn:E2; [reflexivity|]. apply Z.ltb_ge in E2. lia.
  - apply Z.ltb_ge in E1.
    assert (E2 : (k - 1 <? 0) = false) by (apply Z.ltb_ge; lia).
    assert (E3 : (n <=? k - 1) = true) by (apply Z.leb_le; lia).
    rewrite ?E2, E3, ?orb_true_r. reflexivity.
Qed.

Lemma number_out_of_range_is_IndexError_witness :
  main_select [] "1" "9600" = inr IndexError.
Proof.
  apply (number_out_of_range_is_IndexError [] "1" "9600" 1).
  - reflexivity.
  - left. simpl. lia.
Defined.

(** ** Fullscreen *)

Lemma center_clock_frame (L : Lib) (host : datetime) (a a1 : app) :
  center_clock L host a = inl a1 -> only_canvas_differs a1 a.
Proof.
  unfold center_clock, only_canvas_differs.
  destruct (clock_mode a) as [m|] eqn:Hm; [|discriminate].
  destruct (String.eqb m "analog").
  - destruct (timezone L (selected_time_zone a)) as [tz|]; [|discriminate].
    destruct (astimezone host tz) as [loc|]; [|discriminate].
    intro H. inversion H; subst. simpl. rewrite Hm. repeat split.
  - intro H. inversion H; subst. rewrite Hm. repeat split.
Qed.

Lemma center_clock_raises_in_analog_only (L : Lib) (host : datetime) (a : app) (e : exn) :
  center_clock L host a = inr e ->
  clock_mode a = None \/ clock_mode a = Some "analog"%string.
Proof.
  unfold center_clock. destruct (clock_mode a) as [m|]; [|now left].
  destruct (String.eqb_spec m "analog") as [->|_]; [now right | discriminate].
Qed.

(** The fullscreen keys (GPS-CLOCK2.py) flip or clear the flag and at most
    redraw the analog face: they arm no timer, enter no tick, read nothing
    from the serial line, print nothing, and leave the label text, the zone
    and the clock mode alone, whether [center_clock] raises or not. Ctrl-f
    twice gives the flag back. Once [clock_mode] is assigned, the keys can
    raise in analog mode only. *)
Theorem fullscreen_keys_start_no_tick
        (L : Lib) (host host' : datetime) (w : window) :
  fullscreen (fst (toggle_fullscreen L host w)) = negb (fullscreen w)
  /\ fullscreen (fst (exit_fullscreen L host w)) = false
  /\ fullscreen (fst (toggle_fullscreen L host' (fst (toggle_fullscreen L host w))))
     = fullscreen w
  /\ only_canvas_differs (widgets (fst (toggle_fullscreen L host w))) (widgets w)
  /\ only_canvas_differs (widgets (fst (exit_fullscreen L host w))) (widgets w)
  /\ (snd (toggle_fullscreen L host w) = None
      \/ clock_mode (widgets w) = None
      \/ clock_mode (widgets w) = Some "analog"%string)
  /\ (snd (exit_fullscreen L host w) = None
      \/ clock_mode (widgets w) = None
      \/ clock_mode (widgets w) = Some "analog"%string).
Proof.
  assert (Hrefl : only_canvas_differs (widgets w) (widgets w))
    by (unfold only_canvas_differs; repeat split).
  split; [|split; [|split; [|split; [|split; [|split]]]]].
  - unfold toggle_fullscreen. destruct (center_clock L host (widgets w)); reflexivity.
  - unfold exit_fullscreen. destruct (center_clock L host (widgets w)); reflexivity.
  - unfold toggle_fullscreen.
    destruct (center_clock L host (widgets w)) as [a1|e]; simpl;
      match goal with
      | |- context [center_clock L host' ?x] => destruct (center_clock L host' x)
      end; simpl; apply negb_involutive.
  - unfold toggle_fullscreen.
    destruct (center_clock L host (widgets w)) as [a1|e] eqn:E; simpl;
      [exact (center_clock_frame L host _ _ E) | exact Hrefl].
  - unfold exit_fullscreen.
    destruct (center_clock L host (widgets w)) as [a1|e] eqn:E; simpl;
      [exact (center_clock_frame L host _ _ E) | exact Hrefl].
  - unfold toggle_fullscreen.
    destruct (center_clock L host (widgets w)) as [a1|e] eqn:E; simpl;
      [now left | right; exact (center_clock_raises_in_analog_only L host _ e E)].
  - unfold exit_fullscreen.
    destruct (center_clock L host (widgets w)) as [a1|e] eqn:E; simpl;
      [now left | right; exact (center_clock_raises_in_analog_only L host _ e E)].
Qed.

(** In analog mode, with a known zone less than a day from UTC, a fullscreen
    key redraws the face from the clock of the computer, not from the
    receiver: the hands show the host's date and time moved by the zone's
    offset, whatever time the last sentence carried. (The host clock is taken
    to read a year from 1969 to 2068.) *)
Theorem fullscreen_redraws_face_from_host_clock
        (L : Lib) (host : datetime) (w : window) (tz : datetime -> Z) :
  clock_mode (widgets w) = Some "analog"%string ->
  timezone L (selected_time_zone (widgets w)) = Some tz ->
  valid_datetime host = true ->
  1969 <= year host <= 2068 ->
  - 86400 < tz host < 86400 ->
  exists loc,
    valid_datetime loc = true
    /\ to_seconds loc = to_seconds host + tz host
    /\ toggle_fullscreen L host w
       = (mkWindow (draw_analog_clock loc (widgets w)) (negb (fullscreen w)), None)
    /\ exit_fullscreen L host w
       = (mkWindow (draw_analog_clock loc (widgets w)) false, None)
    /\ canvas (draw_analog_clock loc (widgets w))
       = Some (hour loc mod 12, minute loc, second loc).
Proof.
  intros Hm Htz Hv Hy Hoff.
  destruct (add_seconds_exact host (tz host) Hv Hy Hoff) as (loc & Hloc & Hvl & Hsec & _).
  exists loc. split; [exact Hvl|]. split; [exact Hsec|].
  unfold toggle_fullscreen, exit_fullscreen, center_clock.
  rewrite Hm, Htz. unfold astimezone. rewrite Hloc. simpl. repeat split.
Qed.

Lemma fullscreen_redraws_face_from_host_clock_witness :
  exists loc,
    valid_datetime loc = true
    /\ to_seconds loc = to_seconds (mkDatetime 2024 6 8 20 15 30 250000) + 32400
    /\ toggle_fullscreen tokyo (mkDatetime 2024 6 8 20 15 30 250000)
         (mkWindow (mkApp [] "Asia/Tokyo" (Some "analog"%string) EmptyString
                          (Some (0, 35, 19)) [] [1000] 0 [0]) false)
       = (mkWindow (draw_analog_clock loc
                      (mkApp [] "Asia/Tokyo" (Some "analog"%string) EmptyString
                             (Some (0, 35, 19)) [] [1000] 0 [0]))
                   (negb false), None)
    /\ exit_fullscreen tokyo (mkDatetime 2024 6 8 20 15 30 250000)
         (mkWindow (mkApp [] "Asia/Tokyo" (Some "analog"%string) EmptyString
                          (Some (0, 35, 19)) [] [1000] 0 [0]) false)
       = (mkWindow (draw_analog_clock loc
                      (mkApp [] "Asia/Tokyo" (Some "analog"%string) EmptyString
                             (Some (0, 35, 19)) [] [1000] 0 [0]))
                   false, None)
    /\ canvas (draw_analog_clock loc
                 (mkApp [] "Asia/Tokyo" (Some "analog"%string) EmptyString
                        (Some (0, 35, 19)) [] [1000] 0 [0]))
       = Some (hour loc mod 12, minute loc, second loc).
Proof.
  apply (fullscreen_redraws_face_from_host_clock tokyo
           (mkDatetime 2024 6 8 20 15 30 250000)
           (mkWindow (mkApp [] "Asia/Tokyo" (Some "analog"%string) EmptyString
                            (Some (0, 35, 19)) [] [1000] 0 [0]) false)
           (fun _ => 32400));
    try reflexivity; simpl; lia.
Defined.

(** ** More on single ticks *)

(** With a zone identifier the database does not know, the tick that
    reaches a sentence whose time and date convert (the records before it are
    read and passed over) ends in [UnknownTimeZoneError]: the records up to and
    including that sentence are gone from the buffer, the parse errors among
    them are printed, the display keeps what it showed, and no timer is
    armed. *)
Theorem tick_with_unknown_zone
        (L : Lib) (p : program) (a : app) (pre post : list sentence)
        (data : list string) (t : time) (d : date) :
  ser a = pre ++ RMC data :: post ->
  none_time_bearing L pre = true ->
  msg_timestamp L data = PyObj t ->
  msg_datestamp data = PyObj d ->
  timezone L (selected_time_zone a) = None ->
  snd (update_time L p a) = Raised UnknownTimeZoneError
  /\ ser (fst (update_time L p a)) = post
  /\ stdout (fst (update_time L p a)) = stdout a ++ diagnostics pre
  /\ timers (fst (update_time L p a)) = timers a
  /\ time_label (fst (update_time L p a)) = time_label a
  /\ canvas (fst (update_time L p a)) = canvas a.
Proof.
  intros Hs Hpre Ht Hd Htz.
  rewrite (update_unknown_zone L p a pre post data t d Hs Hpre Ht Hd Htz). simpl.
  destruct (print_all_frame (diagnostics pre) (enter a))
    as (_ & _ & _ & Hl & Hc & Htm & _).
  rewrite Hl, Hc, Htm, (stdout_print_all (diagnostics pre) (enter a)). repeat split.
Qed.

Lemma tick_with_unknown_zone_witness :
  snd (update_time tokyo GPS_CLOCK2
         (running "Europe/Atlantis"
            [Unparseable "$GP"; RMC (rmc_fields "123519" "A" "230394"); Other]))
  = Raised UnknownTimeZoneError
  /\ ser (fst (update_time tokyo GPS_CLOCK2
                 (running "Europe/Atlantis"
                    [Unparseable "$GP"; RMC (rmc_fields "123519" "A" "230394"); Other])))
     = [Other]
  /\ stdout (fst (update_time tokyo GPS_CLOCK2
                    (running "Europe/Atlantis"
                       [Unparseable "$GP"; RMC (rmc_fields "123519" "A" "230394"); Other])))
     = stdout (running "Europe/Atlantis" []) ++ diagnostics [Unparseable "$GP"]
  /\ timers (fst (update_time tokyo GPS_CLOCK2
                    (running "Europe/Atlantis"
                       [Unparseable "$GP"; RMC (rmc_fields "123519" "A" "230394"); Other])))
     = timers (running "Europe/Atlantis" [])
  /\ time_label (fst (update_time tokyo GPS_CLOCK2
                        (running "Europe/Atlantis"
                           [Unparseable "$GP"; RMC (rmc_fields "123519" "A" "230394");
                            Other])))
     = time_label (running "Europe/Atlantis" [])
  /\ canvas (fst (update_time tokyo GPS_CLOCK2
                    (running "Europe/Atlantis"
                       [Unparseable "$GP"; RMC (rmc_fields "123519" "A" "230394"); Other])))
     = canvas (running "Europe/Atlantis" []).
Proof.
  apply (tick_with_unknown_zone tokyo GPS_CLOCK2
           (running "Europe/Atlantis"
              [Unparseable "$GP"; RMC (rmc_fields "123519" "A" "230394"); Other])
           [Unparseable "$GP"] [Other] (rmc_fields "123519" "A" "230394")
           (mkTime 12 35 19 0) (mkDate 1994 3 23));
    reflexivity.
Defined.

(** Whatever the time and date fields hold, when both convert, the date and
    time the program combines is one of the calendar, with a year from 1969
    to 2068 and a time of day from 00:00:00 to 23:59:59: no text in the
    fields makes the program handle a date outside that century. *)
Theorem decoded_date_and_time_are_valid
        (L : Lib) (data : list string) (t : time) (d : date) :
  msg_timestamp L data = PyObj t ->
  msg_datestamp data = PyObj d ->
  valid_datetime (combine d t) = true
  /\ 1969 <= year (combine d t) <= 2068
  /\ 0 <= hour (combine d t) <= 23
  /\ 0 <= minute (combine d t) <= 59
  /\ 0 <= second (combine d t) <= 59.
Proof.
  intros Ht Hd. destruct (combine_valid L data t d Ht Hd) as [Hv Hy].
  split; [exact Hv|]. split; [exact Hy|].
  unfold valid_datetime in Hv. apply andb_prop in Hv. destruct Hv as [_ Hv].
  destruct (check_time_fields_bounds _ _ _ _ Hv) as (Hh & Hmi & Hs & _).
  repeat split; lia.
Qed.

Lemma decoded_date_and_time_are_valid_witness :
  valid_datetime (combine (mkDate 1994 3 1) (mkTime 5 5 5 0)) = true
  /\ 1969 <= year (combine (mkDate 1994 3 1) (mkTime 5 5 5 0)) <= 2068
  /\ 0 <= hour (combine (mkDate 1994 3 1) (mkTime 5 5 5 0)) <= 23
  /\ 0 <= minute (combine (mkDate 1994 3 1) (mkTime 5 5 5 0)) <= 59
  /\ 0 <= second (combine (mkDate 1994 3 1) (mkTime 5 5 5 0)) <= 59.
Proof.
  apply (decoded_date_and_time_are_valid bare (rmc_fields "+5 5+5" "A" "1394")
           (mkTime 5 5 5 0) (mkDate 1994 3 1));
    reflexivity.
Defined.

(** A line on which reading or parsing raises an exception other than
    [ParseError] (and [UnicodeDecodeError]) ends the tick in that exception:
    the records before it are read and the parse errors among them printed,
    the line itself is gone from the buffer and is not reported, the records
    after it stay, the display keeps what it showed, and no timer is
    armed. *)
Theorem tick_at_unhandled_exception
        (L : Lib) (p : program) (a : app) (pre post : list sentence)
        (exception : string) :
  ser a = pre ++ Fault exception :: post ->
  none_time_bearing L pre = true ->
  snd (update_time L p a) = Raised (Unhandled exception)
  /\ ser (fst (update_time L p a)) = post
  /\ stdout (fst (update_time L p a)) = stdout a ++ diagnostics pre
  /\ timers (fst (update_time L p a)) = timers a
  /\ time_label (fst (update_time L p a)) = time_label a
  /\ canvas (fst (update_time L p a)) = canvas a.
Proof.
  intros Hs Hpre. unfold update_time. change (ser (enter a)) with (ser a).
  rewrite Hs, (loop_skip L p _ _ _ Hpre), (loop_fault L p). simpl.
  destruct (print_all_frame (diagnostics pre) (enter a))
    as (_ & _ & _ & Hl & Hc & Htm & _).
  rewrite Hl, Hc, Htm, (stdout_print_all (diagnostics pre) (enter a)). repeat split.
Qed.

Lemma tick_at_unhandled_exception_witness :
  snd (update_time bare GPS_CLOCK
         (running "UTC" [Unparseable "$GP"; Fault "IndexError";
                         RMC (rmc_fields "123519" "A" "230394")]))
  = Raised (Unhandled "IndexError")
  /\ ser (fst (update_time bare GPS_CLOCK
                 (running "UTC" [Unparseable "$GP"; Fault "IndexError";
                                 RMC (rmc_fields "123519" "A" "230394")])))
     = [RMC (rmc_fields "123519" "A" "230394")]
  /\ stdout (fst (update_time bare GPS_CLOCK
                    (running "UTC" [Unparseable "$GP"; Fault "IndexError";
                                    RMC (rmc_fields "123519" "A" "230394")])))
     = stdout (running "UTC" []) ++ diagnostics [Unparseable "$GP"]
  /\ timers (fst (update_time bare GPS_CLOCK
                    (running "UTC" [Unparseable "$GP"; Fault "IndexError";
                                    RMC (rmc_fields "123519" "A" "230394")])))
     = timers (running "UTC" [])
  /\ time_label (fst (update_time bare GPS_CLOCK
                        (running "UTC" [Unparseable "$GP"; Fault "IndexError";
                                        RMC (rmc_fields "123519" "A" "230394")])))
     = time_label (running "UTC" [])
  /\ canvas (fst (update_time bare GPS_CLOCK
                    (running "UTC" [Unparseable "$GP"; Fault "IndexError";
                                    RMC (rmc_fields "123519" "A" "230394")])))
     = canvas (running "UTC" []).
Proof.
  apply (tick_at_unhandled_exception bare GPS_CLOCK
           (running "UTC" [Unparseable "$GP"; Fault "IndexError";
                           RMC (rmc_fields "123519" "A" "230394")])
           [Unparseable "$GP"] [RMC (rmc_fields "123519" "A" "230394")] "IndexError");
    reflexivity.
Defined.
